(** * odo.backends.sql_csv: bulk loading of CSV resources into SQL tables

    A shallow embedding of [odo/backends/sql_csv.py]: the [CopyFromCSV]
    clause element, its four dialect compilers ([sqlite], [mysql],
    [postgresql], [redshift]) and the [append] handler registered for
    [(sa.Table, CSV)].

    Conventions of the embedding.
    - Python [str] values are byte strings ([string]); whitespace is the
      ASCII class matched by [str.strip] and by [\s]: space, \t, \n, \v, \f, \r.
    - The named keyword parameters of [CopyFromCSV.__init__] are typed the
      way the CSV dialect documents them (text options are [string],
      [skiprows] is an integer, [header] is tri-state); every other keyword
      lands in a bag of dynamically typed extras, as [setattr] does.
    - Everything the module imports from outside itself ([convert], the
      [append] dispatcher, [infer_header], [find_executable], the [sqlite3]
      process, [boto.Config], [sa.inspect], [CopyCommand], the engine
      behind [conn.execute] and table reflection) is a field of [Env].
    - Effects are threaded through a [World]: the engine's committed
      tables, the pending write set of the open transaction, and a log of
      the effects requested.
    - [assert] statements are live (the interpreter runs without [-O]). *)

From Stdlib Require Import ZArith Ascii String List Bool Lia.
From stdpp Require Import base option gmap strings pretty.

Local Open Scope string_scope.
Local Open Scope Z_scope.
Local Open Scope list_scope.

(** ** Python string primitives *)

Module PyStr.

Definition nl : string := String "010" "".
Definition dquote : ascii := "034".

(** [c.isspace()] for a byte. *)
Definition is_space (c : ascii) : bool :=
  let n := nat_of_ascii c in
  (Nat.eqb n 32 || (Nat.leb 9 n && Nat.leb n 13))%bool.

Fixpoint all_space (s : string) : bool :=
  match s with
  | EmptyString => true
  | String c r => is_space c && all_space r
  end.

(** [s.lstrip()], [s.rstrip()] and [s.strip()]. *)
Fixpoint lstrip (s : string) : string :=
  match s with
  | EmptyString => EmptyString
  | String c r => if is_space c then lstrip r else s
  end.

Fixpoint rstrip (s : string) : string :=
  match s with
  | EmptyString => EmptyString
  | String c r => if all_space s then EmptyString else String c (rstrip r)
  end.

Definition strip (s : string) : string := rstrip (lstrip s).

(** [s.lower()] and [s.upper()]: only the ASCII letters move. *)
Definition lower_char (c : ascii) : ascii :=
  let n := nat_of_ascii c in
  if (Nat.leb 65 n && Nat.leb n 90)%bool then ascii_of_nat (n + 32) else c.

Definition upper_char (c : ascii) : ascii :=
  let n := nat_of_ascii c in
  if (Nat.leb 97 n && Nat.leb n 122)%bool then ascii_of_nat (n - 32) else c.

Fixpoint map_chars (f : ascii -> ascii) (s : string) : string :=
  match s with
  | EmptyString => EmptyString
  | String c r => String (f c) (map_chars f r)
  end.

Definition lower : string -> string := map_chars lower_char.
Definition upper : string -> string := map_chars upper_char.

(** [s.startswith(p)]. *)
Definition startswith (s p : string) : bool := String.prefix p s.

(** [sep.join(l)]. *)
Fixpoint join (sep : string) (l : list string) : string :=
  match l with
  | [] => ""
  | [x] => x
  | x :: r => x +:+ sep +:+ join sep r
  end.

Fixpoint contains_char (c : ascii) (s : string) : bool :=
  match s with
  | EmptyString => false
  | String d r => Ascii.eqb c d || contains_char c r
  end.

Definition hex_digit (n : nat) : ascii :=
  if Nat.ltb n 10 then ascii_of_nat (48 + n) else ascii_of_nat (87 + n).

Definition repr_char (quote c : ascii) : string :=
  let n := nat_of_ascii c in
  if (Ascii.eqb c quote || Ascii.eqb c "\")%bool then String "\" (String c "")
  else if Nat.eqb n 9 then "\t"
  else if Nat.eqb n 10 then "\n"
  else if Nat.eqb n 13 then "\r"
  else if (Nat.ltb n 32 || Nat.leb 127 n)%bool then
    String "\" (String "x" (String (hex_digit (n / 16))
                              (String (hex_digit (n mod 16)) "")))
  else String c "".

Fixpoint repr_body (quote : ascii) (s : string) : string :=
  match s with
  | EmptyString => EmptyString
  | String c r => repr_char quote c +:+ repr_body quote r
  end.

(** [repr(s)] of a byte string: single quotes unless the text holds a
    single quote and no double quote. *)
Definition repr (s : string) : string :=
  let quote : ascii :=
    if (contains_char "'" s && negb (contains_char dquote s))%bool
    then dquote else "'"%char in
  String quote (repr_body quote s +:+ String quote "").

(** [re.sub(r'\s+', ' ', s)]: every maximal run of whitespace becomes
    one space. *)
Fixpoint collapse_go (in_run : bool) (s : string) : string :=
  match s with
  | EmptyString => EmptyString
  | String c r =>
      if is_space c
      then (if in_run then collapse_go true r
            else String " " (collapse_go true r))
      else String c (collapse_go false r)
  end.

Definition collapse_ws : string -> string := collapse_go false.

Fixpoint ws_then_semi (s : string) : bool :=
  match s with
  | EmptyString => false
  | String c r => if is_space c then ws_then_semi r else Ascii.eqb c ";"
  end.

(** [re.sub(r'\s+(;)', r'\1', s)]: a run of whitespace that is followed
    by a semicolon is removed. *)
Fixpoint drop_ws_before_semi (s : string) : string :=
  match s with
  | EmptyString => EmptyString
  | String c r =>
      if (is_space c && ws_then_semi r)%bool then drop_ws_before_semi r
      else String c (drop_ws_before_semi r)
  end.

End PyStr.

(** ** Python values, exceptions and results *)

(** The dynamically typed values that can sit in the bag of extra
    keywords. *)
Inductive pyval :=
| VNone
| VBool (b : bool)
| VInt (n : Z)
| VStr (s : string).

(** [str(v)], as [str.format] and [%s] apply it. *)
Definition py_str (v : pyval) : string :=
  match v with
  | VNone => "None"
  | VBool true => "True"
  | VBool false => "False"
  | VInt n => pretty n
  | VStr s => s
  end.

Definition py_of_header (h : option bool) : pyval :=
  match h with
  | None => VNone
  | Some b => VBool b
  end.

Inductive exn :=
| TypeError (msg : string)
| AttributeError (msg : string)
| ValueError (msg : string)
| AssertionError (msg : string)
| UnboundLocalError (var : string)
| MDNotImplementedError (msg : string)
| UnsupportedCompilationError (dialect : string)
| ExternalError (msg : string).

Inductive result (A : Type) :=
| Ok (a : A)
| Raise (e : exn).
Arguments Ok {A} a.
Arguments Raise {A} e.

(** ** Data model *)

(** The resource classes [CSV], [S3(CSV)], [SSH(CSV)], [Temp(...)]. *)
Inductive kind :=
| CSV
| S3 (k : kind)
| SSH (k : kind)
| Temp (k : kind).

Fixpoint kind_eqb (a b : kind) : bool :=
  match a, b with
  | CSV, CSV => true
  | S3 x, S3 y | SSH x, SSH y | Temp x, Temp y => kind_eqb x y
  | _, _ => false
  end.

(** [issubclass(k, target)]: [Temp(X)] derives from [X]; [S3(CSV)] and
    [SSH(CSV)] derive from [CSV]. *)
Fixpoint subkind (k target : kind) : bool :=
  kind_eqb k target ||
  match k with
  | CSV => false
  | S3 x | SSH x | Temp x => subkind x target
  end.

(** The keyword dictionary of a load: the named parameters of
    [CopyFromCSV.__init__] ([None] is an absent key) and the remaining
    keywords. *)
Record kwargs := {
  kw_delimiter : option string;
  kw_header : option (option bool);
  kw_na_value : option string;
  kw_lineterminator : option string;
  kw_quotechar : option string;
  kw_escapechar : option string;
  kw_encoding : option string;
  kw_skiprows : option Z;
  kw_extras : gmap string pyval
}.

Definition no_kwargs : kwargs :=
  {| kw_delimiter := None; kw_header := None; kw_na_value := None;
     kw_lineterminator := None; kw_quotechar := None; kw_escapechar := None;
     kw_encoding := None; kw_skiprows := None; kw_extras := ∅ |}.

Definition or_else {A} (later earlier : option A) : option A :=
  match later with
  | Some v => Some v
  | None => earlier
  end.

(** [toolz.merge(d, k)]: keys of the later dictionary win. *)
Definition merge (d k : kwargs) : kwargs :=
  {| kw_delimiter := or_else (kw_delimiter k) (kw_delimiter d);
     kw_header := or_else (kw_header k) (kw_header d);
     kw_na_value := or_else (kw_na_value k) (kw_na_value d);
     kw_lineterminator := or_else (kw_lineterminator k) (kw_lineterminator d);
     kw_quotechar := or_else (kw_quotechar k) (kw_quotechar d);
     kw_escapechar := or_else (kw_escapechar k) (kw_escapechar d);
     kw_encoding := or_else (kw_encoding k) (kw_encoding d);
     kw_skiprows := or_else (kw_skiprows k) (kw_skiprows d);
     kw_extras := kw_extras k ∪ kw_extras d |}.

(** A delimited-text resource: an instance of [CSV] or of a class derived
    from it. *)
Record resource := {
  rkind : kind;
  path : string;
  has_header : option bool;
  dialect : kwargs
}.

Definition isinstance (r : resource) (k : kind) : bool := subkind (rkind r) k.

(** [tbl.bind]: the engine a table is bound to. *)
Record Bind := {
  dialect_name : string;
  url_database : string
}.

(** [sa.Table]. *)
Record Table := {
  name : string;
  schema : option string;
  bind : Bind;
  columns : list string
}.

(** An instance of [CopyFromCSV]: the attributes [__init__] sets. *)
Record CopyFromCSV := {
  element : Table;
  csv : resource;
  delimiter : string;
  header : option bool;
  na_value : string;
  lineterminator : string;
  quotechar : string;
  escapechar : string;
  encoding : string;
  skiprows : Z;
  attrs : gmap string pyval
}.

(** [getattr(element, key, default)] for a key outside the named
    attributes. *)
Definition getattr (el : CopyFromCSV) (key : string) (default : pyval) : pyval :=
  match attrs el !! key with
  | Some v => v
  | None => default
  end.

(** The [options] dictionary and the arguments of redshift's
    [CopyCommand]. *)
Record copy_options := {
  opt_delimiter : string;
  opt_ignore_header : Z;
  opt_empty_as_null : bool;
  opt_blanks_as_null : bool;
  opt_compression : pyval
}.

Record CopyCommand := {
  schema_name : option string;
  table_name : string;
  data_location : string;
  access_key : option string;
  secret_key : option string;
  options : copy_options;
  format : string
}.

(** ** The world: engine state and effect log *)

Inductive event :=
| EvConvert (target : kind) (src : resource)
| EvSpawn (cmd : list string)
| EvBegin
| EvExecute (sql : string)
| EvCommit
| EvRollback
| EvReflect (table : string).

(** Rows of every table, by table name. *)
Abbreviation DB := (gmap string (list string)).

Record World := {
  tables : DB;           (* committed, visible state of the engine *)
  pending : option DB;   (* write set of the open transaction *)
  log : list event
}.

Definition M (A : Type) : Type := World -> result A * World.

Definition ret {A} (a : A) : M A := fun w => (Ok a, w).
Definition raise {A} (e : exn) : M A := fun w => (Raise e, w).
Definition bind_M {A B} (m : M A) (f : A -> M B) : M B :=
  fun w =>
    match m w with
    | (Ok a, w') => f a w'
    | (Raise e, w') => (Raise e, w')
    end.
Definition lift {A} (r : result A) : M A := fun w => (r, w).
Definition emit (e : event) : M unit :=
  fun w => (Ok tt, {| tables := tables w; pending := pending w;
                      log := log w ++ [e] |}).

Notation "'do' x <- m ; k" := (bind_M m (fun x => k))
  (at level 10, x name, m at level 100, k at level 200).
Notation "'run' m ; k" := (bind_M m (fun _ => k))
  (at level 10, m at level 100, k at level 200).

(** ** External collaborators *)

Record Env := {
  (** [odo.convert(target, csv, **kwargs)] *)
  convert : kind -> resource -> kwargs -> result resource;
  (** the [append] dispatcher of [odo.append] *)
  append : Table -> resource -> kwargs -> M Table;
  (** [odo.backends.csv.infer_header] *)
  infer_header : resource -> result bool;
  (** [distutils.spawn.find_executable], as a truth value *)
  find_executable : string -> bool;
  (** the [sqlite3] command line tool: what it prints and what it does to
      the database file *)
  sqlite3 : list string -> DB -> string * DB;
  (** whether [boto], [odo.backends.aws] and [redshift_sqlalchemy] import *)
  redshift_installed : bool;
  (** [boto.Config().get(section, key)] *)
  boto_get : string -> string -> option string;
  (** [sa.inspect(bind).default_schema_name] *)
  default_schema_name : Bind -> option string;
  (** [str(cmd)] of a [CopyCommand] *)
  render_CopyCommand : CopyCommand -> string;
  (** the engine running one statement inside a transaction: the write
      set it leaves and the error it reports, if any *)
  engine_execute : Bind -> string -> DB -> DB * option exn;
  (** the columns the engine reports for a table ([autoload=True]) *)
  reflect_columns : DB -> string -> option string -> list string
}.

(** ** [CopyFromCSV.__init__] *)

Definition has_key (m : gmap string pyval) (k : string) : bool :=
  match m !! k with
  | Some _ => true
  | None => false
  end.

(** [CopyFromCSV(element, csv, **kwargs)].  A keyword that names a
    positional parameter is refused by the call itself; [isinstance(element,
    sa.Table)] holds by typing; [bind] is a read-only property, so
    [setattr] refuses it. *)
Definition CopyFromCSV_init (env : Env) (element : Table) (csv : resource)
    (kw : kwargs) : result CopyFromCSV :=
  if (has_key (kw_extras kw) "self" || has_key (kw_extras kw) "element"
      || has_key (kw_extras kw) "csv")%bool
  then Raise (TypeError "__init__() got multiple values for argument")
  else
    let header : option bool :=
      match kw_header kw with
      | Some h => h
      | None => None
      end in
    let resolved : result bool :=
      match header with
      | Some b => Ok b
      | None =>
          match has_header csv with
          | Some b => Ok b
          | None => infer_header env csv
          end
      end in
    match resolved with
    | Raise e => Raise e
    | Ok h =>
        if has_key (kw_extras kw) "bind"
        then Raise (AttributeError "can't set attribute")
        else
          Ok {| element := element;
                csv := csv;
                delimiter := default "," (kw_delimiter kw);
                header := Some h;
                na_value := default "" (kw_na_value kw);
                lineterminator := default "\n" (kw_lineterminator kw);
                quotechar := default (String PyStr.dquote "") (kw_quotechar kw);
                escapechar := default "\\" (kw_escapechar kw);
                encoding := default "utf8" (kw_encoding kw);
                skiprows := default 0 (kw_skiprows kw);
                attrs := kw_extras kw |}
    end.

(** ** The dialect compilers *)

Import PyStr.

(** [@compiles(CopyFromCSV, 'sqlite')] *)
Definition sqlite_cmd (el : CopyFromCSV) : list string :=
  [ "sqlite3";
    "-nullvalue"; repr (na_value el);
    "-" +:+ (match header el with
             | Some true => ""
             | _ => "no"
             end) +:+ "header";
    "-separator"; delimiter el;
    "-cmd"; ".import " +:+ path (csv el) +:+ " " +:+ name (element el);
    url_database (bind (element el)) ].

Definition Popen_communicate (env : Env) (cmd : list string) : M string :=
  fun w =>
    let '(stdout, db) := sqlite3 env cmd (tables w) in
    (Ok stdout, {| tables := db; pending := pending w;
                   log := log w ++ [EvSpawn cmd] |}).

Definition compile_from_csv_sqlite (env : Env) (el : CopyFromCSV) : M string :=
  if negb (find_executable env "sqlite3")
  then raise (MDNotImplementedError "Could not find sqlite executable")
  else
    let cmd := sqlite_cmd el in
    do stdout <- Popen_communicate env cmd;
    if String.eqb stdout ""
    then ret ""
    else raise (AssertionError ("bad query " +:+ join " " cmd)).

(** [{'utf-8': 'utf8'}.get(enc.lower(), enc or 'utf8')] and its postgres
    twin. *)
Definition synonym (key value enc : string) : string :=
  if String.eqb (lower enc) key then value
  else if String.eqb enc "" then "utf8" else enc.

(** [@compiles(CopyFromCSV, 'mysql')] *)
Definition compile_from_csv_mysql (el : CopyFromCSV) : result string :=
  if negb (String.eqb (na_value el) "")
  then Raise (ValueError "MySQL does not support custom NULL values")
  else
    let encoding := synonym "utf-8" "utf8" (encoding el) in
    let local := py_str (getattr el "local" (VStr "")) in
    Ok (strip
      (nl +:+
       "        LOAD DATA " +:+ local +:+ " INFILE '" +:+ path (csv el) +:+ "'" +:+ nl +:+
       "        INTO TABLE " +:+ name (element el) +:+ nl +:+
       "        CHARACTER SET " +:+ encoding +:+ nl +:+
       "        FIELDS" +:+ nl +:+
       "            TERMINATED BY '" +:+ delimiter el +:+ "'" +:+ nl +:+
       "            ENCLOSED BY '" +:+ quotechar el +:+ "'" +:+ nl +:+
       "            ESCAPED BY '" +:+ escapechar el +:+ "'" +:+ nl +:+
       "        LINES TERMINATED BY '" +:+ lineterminator el +:+ "'" +:+ nl +:+
       "        IGNORE " +:+ pretty (skiprows el) +:+ " LINES;" +:+ nl +:+
       "    ")).

(** [@compiles(CopyFromCSV, 'postgresql')] *)
Definition compile_from_csv_postgres (el : CopyFromCSV) : result string :=
  let encoding := synonym "utf8" "utf-8" (encoding el) in
  let header := upper (py_str (py_of_header (header el))) in
  Ok (strip
    (nl +:+
     "    COPY " +:+ name (element el) +:+ " FROM '" +:+ path (csv el) +:+ "'" +:+ nl +:+
     "        (FORMAT CSV," +:+ nl +:+
     "         DELIMITER E'" +:+ delimiter el +:+ "'," +:+ nl +:+
     "         NULL '" +:+ na_value el +:+ "'," +:+ nl +:+
     "         QUOTE '" +:+ quotechar el +:+ "'," +:+ nl +:+
     "         ESCAPE '" +:+ escapechar el +:+ "'," +:+ nl +:+
     "         HEADER " +:+ header +:+ "," +:+ nl +:+
     "         ENCODING '" +:+ encoding +:+ "');")).

(** [a or b] on an optional text: [None] and the empty text are false. *)
Definition or_default (a b : option string) : option string :=
  match a with
  | Some s => if String.eqb s "" then b else Some s
  | None => b
  end.

(** [@compiles(CopyFromCSV, 'redshift')].  The local [schema_name] is
    bound only inside the [if]; reading it when the branch was skipped is
    an [UnboundLocalError]. *)
Definition compile_from_csv_redshift (env : Env) (el : CopyFromCSV)
    : result string :=
  if negb (isinstance (csv el) (S3 CSV)) then Raise (AssertionError "")
  else if negb (startswith (path (csv el)) "s3://") then Raise (AssertionError "")
  else
    let aws_access_key_id := boto_get env "Credentials" "aws_access_key_id" in
    let aws_secret_access_key := boto_get env "Credentials" "aws_secret_access_key" in
    match header el with
    | None => Raise (TypeError "int() argument must be a string or a number")
    | Some h =>
        let options :=
          {| opt_delimiter := delimiter el;
             opt_ignore_header := if h then 1 else 0;
             opt_empty_as_null := true;
             opt_blanks_as_null := false;
             opt_compression := getattr el "compression" (VStr "") |} in
        let schema_name : option (option string) :=
          match getattr el "schema_name" VNone with
          | VNone =>
              Some (or_default (schema (element el))
                               (default_schema_name env (bind (element el))))
          | _ => None
          end in
        match schema_name with
        | None => Raise (UnboundLocalError "schema_name")
        | Some schema_name =>
            let cmd :=
              {| schema_name := schema_name;
                 table_name := name (element el);
                 data_location := path (csv el);
                 access_key := aws_access_key_id;
                 secret_key := aws_secret_access_key;
                 options := options;
                 format := "CSV" |} in
            Ok (strip (drop_ws_before_semi
                         (collapse_ws (render_CopyCommand env cmd))))
        end
    end.

(** The registry filled by the [@compiles] decorators of this module. *)
Definition compile (env : Env) (d : string) (el : CopyFromCSV) : M string :=
  if String.eqb d "sqlite" then compile_from_csv_sqlite env el
  else if String.eqb d "mysql" then lift (compile_from_csv_mysql el)
  else if String.eqb d "postgresql" then lift (compile_from_csv_postgres el)
  else if (String.eqb d "redshift" && redshift_installed env)%bool
       then lift (compile_from_csv_redshift env el)
  else raise (UnsupportedCompilationError d).

(** ** The load executor *)

(** [tbl.bind.begin()] opens a transaction with an empty write set; leaving
    the [with] block commits it, leaving it by an exception rolls it back
    and re-raises. *)
Definition begin (w : World) : World :=
  {| tables := tables w; pending := None; log := log w ++ [EvBegin] |}.

Definition commit (w : World) : World :=
  {| tables := default (tables w) (pending w); pending := None;
     log := log w ++ [EvCommit] |}.

Definition rollback (w : World) : World :=
  {| tables := tables w; pending := None; log := log w ++ [EvRollback] |}.

Definition with_begin {A} (body : M A) : M A :=
  fun w =>
    match body (begin w) with
    | (Ok a, w') => (Ok a, commit w')
    | (Raise e, w') => (Raise e, rollback w')
    end.

(** [conn.execute(stmt)]: the statement is compiled for the connection's
    dialect, then the engine runs the text inside the transaction. *)
Definition run_statement (env : Env) (b : Bind) (sql : string) : M unit :=
  fun w =>
    let '(db, err) := engine_execute env b sql (default (tables w) (pending w)) in
    (match err with
     | None => Ok tt
     | Some e => Raise e
     end,
     {| tables := tables w; pending := Some db;
        log := log w ++ [EvExecute sql] |}).

Definition conn_execute (env : Env) (b : Bind) (stmt : CopyFromCSV) : M unit :=
  do sql <- compile env (dialect_name b) stmt;
  run_statement env b sql.

(** [sa.Table(tbl.name, sa.MetaData(bind=tbl.bind), extend_existing=True,
    autoload=True, schema=tbl.schema)] *)
Definition reflect (env : Env) (tbl : Table) : M Table :=
  fun w =>
    (Ok {| name := name tbl; schema := schema tbl; bind := bind tbl;
           columns := reflect_columns env (tables w) (name tbl) (schema tbl) |},
     {| tables := tables w; pending := pending w;
        log := log w ++ [EvReflect (name tbl)] |}).

(** ** [append_csv_to_sql_table] *)

(** [convert(target, csv, **kwargs)], with the request logged. *)
Definition request_convert (env : Env) (target : kind) (csv : resource)
    (kw : kwargs) : M resource :=
  run emit (EvConvert target csv);
  lift (convert env target csv kw).

Definition with_extra (key : string) (v : pyval) (kw : kwargs) : kwargs :=
  {| kw_delimiter := kw_delimiter kw; kw_header := kw_header kw;
     kw_na_value := kw_na_value kw; kw_lineterminator := kw_lineterminator kw;
     kw_quotechar := kw_quotechar kw; kw_escapechar := kw_escapechar kw;
     kw_encoding := kw_encoding kw; kw_skiprows := kw_skiprows kw;
     kw_extras := <[key := v]> (kw_extras kw) |}.

(** How the [if]/[elif] chain leaves: with a resource to load, or with the
    table returned by the recursive [append]. *)
Inductive relocation :=
| Proceed (csv : resource)
| Return (tbl : Table).

(** The [if]/[elif] chain at the head of [append_csv_to_sql_table]. *)
Definition relocate (env : Env) (tbl : Table) (csv : resource) (kw : kwargs)
    : M relocation :=
  let dialect := dialect_name (bind tbl) in
  if (String.eqb dialect "redshift" && negb (isinstance csv (S3 CSV)))%bool then
    do csv <- request_convert env (Temp (S3 CSV)) csv kw;
    ret (Proceed csv)
  else if (negb (String.eqb dialect "redshift") && isinstance csv (S3 CSV))%bool then
    if has_key (kw_extras kw) "has_header"
    then raise (TypeError "convert() got multiple values for keyword argument 'has_header'")
    else
      do csv <- request_convert env (Temp CSV) csv
                  (with_extra "has_header" (py_of_header (has_header csv)) kw);
      ret (Proceed csv)
  else if String.eqb dialect "hive" then
    do moved <- request_convert env (Temp (SSH CSV)) csv kw;
    do tbl <- append env tbl moved kw;
    ret (Return tbl)
  else ret (Proceed csv).

(** The rest of the body: merge the options, build the clause, execute it
    in a transaction, reflect the table. *)
Definition load (env : Env) (tbl : Table) (csv : resource) (kw : kwargs)
    : M Table :=
  let kwargs := merge (dialect csv) kw in
  do stmt <- lift (CopyFromCSV_init env tbl csv kwargs);
  run with_begin (conn_execute env (bind tbl) stmt);
  reflect env tbl.

(** [@append.register(sa.Table, CSV)] *)
Definition append_csv_to_sql_table (env : Env) (tbl : Table) (csv : resource)
    (kw : kwargs) : M Table :=
  do r <- relocate env tbl csv kw;
  match r with
  | Return tbl => ret tbl
  | Proceed csv => load env tbl csv kw
  end.

(** ** Properties of the pipeline, as predicates *)

(** The engine that loads from object storage. *)
Definition requires_cloud (d : string) : bool := String.eqb d "redshift".

(** The one medium test the module itself makes: the resource is an
    instance of [S3(CSV)] exactly when the engine is redshift.  It says
    nothing about the remote-host medium. *)
Definition cloud_residency_agrees (tbl : Table) (csv : resource) : bool :=
  Bool.eqb (isinstance csv (S3 CSV)) (requires_cloud (dialect_name (bind tbl))).





(** The conversion collaborator answers with an instance of the class it
    was asked for. *)
Definition convert_honours_target (env : Env) : Prop :=
  forall target src kw out, convert env target src kw = Ok out -> rkind out = target.


(** A compiler that neither changes the world nor reads anything but the
    clause element. *)
Definition pure_compiler (d : string) : Prop :=
  forall env el w,
    snd (compile env d el w) = w /\
    forall env' w', fst (compile env' d el w') = fst (compile env d el w).

(** The header flag by priority: the caller's override, else the
    resource's own header state, else what its content suggests. *)
Definition header_priority (env : Env) (kw : kwargs) (csv : resource)
    : result bool :=
  match kw_header kw with
  | Some (Some override) => Ok override
  | _ =>
      match has_header csv with
      | Some known => Ok known
      | None => infer_header env csv
      end
  end.

Definition bool_keyword (b : bool) : string := if b then "TRUE" else "FALSE".

(** The text the mysql compiler is expected to return, with the
    character set left open. *)
Definition mysql_statement (el : CopyFromCSV) (charset : string) : string :=
  "LOAD DATA " +:+ py_str (getattr el "local" (VStr "")) +:+
  " INFILE '" +:+ path (csv el) +:+ "'" +:+ nl +:+
  "        INTO TABLE " +:+ name (element el) +:+ nl +:+
  "        CHARACTER SET " +:+ charset +:+ nl +:+
  "        FIELDS" +:+ nl +:+
  "            TERMINATED BY '" +:+ delimiter el +:+ "'" +:+ nl +:+
  "            ENCLOSED BY '" +:+ quotechar el +:+ "'" +:+ nl +:+
  "            ESCAPED BY '" +:+ escapechar el +:+ "'" +:+ nl +:+
  "        LINES TERMINATED BY '" +:+ lineterminator el +:+ "'" +:+ nl +:+
  "        IGNORE " +:+ pretty (skiprows el) +:+ " LINES;".

(** The text the postgres compiler is expected to return, with the header
    keyword and the encoding name left open. *)
Definition postgres_statement (el : CopyFromCSV) (hdr enc : string) : string :=
  "COPY " +:+ name (element el) +:+ " FROM '" +:+ path (csv el) +:+ "'" +:+ nl +:+
  "        (FORMAT CSV," +:+ nl +:+
  "         DELIMITER E'" +:+ delimiter el +:+ "'," +:+ nl +:+
  "         NULL '" +:+ na_value el +:+ "'," +:+ nl +:+
  "         QUOTE '" +:+ quotechar el +:+ "'," +:+ nl +:+
  "         ESCAPE '" +:+ escapechar el +:+ "'," +:+ nl +:+
  "         HEADER " +:+ hdr +:+ "," +:+ nl +:+
  "         ENCODING '" +:+ enc +:+ "');".

(** What a call to [load] leaves behind on an engine whose compiler does
    not write: a committed write set and a reflected table, or the tables
    as they were. *)
Definition transactional_outcome (env : Env) (tbl : Table) (src : resource)
    (kw : kwargs) (w : World) (r : result Table) (w' : World) : Prop :=
  match r with
  | Ok out =>
      exists stmt sql db,
        CopyFromCSV_init env tbl src (merge (dialect src) kw) = Ok stmt /\
        compile env (dialect_name (bind tbl)) stmt (begin w) = (Ok sql, begin w) /\
        engine_execute env (bind tbl) sql (tables w) = (db, None) /\
        tables w' = db /\ pending w' = None /\
        log w' = log w ++ [EvBegin; EvExecute sql; EvCommit; EvReflect (name tbl)] /\
        out = {| name := name tbl; schema := schema tbl; bind := bind tbl;
                 columns := reflect_columns env db (name tbl) (schema tbl) |}
  | Raise e =>
      tables w' = tables w /\
      ((CopyFromCSV_init env tbl src (merge (dialect src) kw) = Raise e /\
        w' = w) \/
       (exists stmt,
          CopyFromCSV_init env tbl src (merge (dialect src) kw) = Ok stmt /\
          compile env (dialect_name (bind tbl)) stmt (begin w) = (Raise e, begin w) /\
          pending w' = None /\
          log w' = log w ++ [EvBegin; EvRollback]) \/
       (exists stmt sql db,
          CopyFromCSV_init env tbl src (merge (dialect src) kw) = Ok stmt /\
          compile env (dialect_name (bind tbl)) stmt (begin w) = (Ok sql, begin w) /\
          engine_execute env (bind tbl) sql (tables w) = (db, Some e) /\
          pending w' = None /\
          log w' = log w ++ [EvBegin; EvExecute sql; EvRollback]))
  end.

(** ** Shape of a normalised statement *)

(** [re.sub(r'\s+(;)', r'\1', re.sub(r'\s+', ' ', text)).strip()], the
    clean-up the redshift compiler applies to the rendered command. *)
Definition normalise_statement (text : string) : string :=
  strip (drop_ws_before_semi (collapse_ws text)).

(** Every whitespace character is a space, and no two of them touch;
    [after_space] tells whether the character before the text was one. *)
Fixpoint single_spaced (after_space : bool) (s : string) : bool :=
  match s with
  | EmptyString => true
  | String c r =>
      if is_space c
      then (Ascii.eqb c " " && negb after_space && single_spaced true r)%bool
      else single_spaced false r
  end.

(** No whitespace character has a semicolon as the next visible
    character. *)
Fixpoint no_space_before_semi (s : string) : bool :=
  match s with
  | EmptyString => true
  | String c r =>
      (negb (is_space c && ws_then_semi r) && no_space_before_semi r)%bool
  end.

Definition first_is_space (s : string) : bool :=
  match s with
  | EmptyString => false
  | String c _ => is_space c
  end.

Fixpoint last_is_space (s : string) : bool :=
  match s with
  | EmptyString => false
  | String c EmptyString => is_space c
  | String _ r => last_is_space r
  end.

(** The options a clause element ends up with when [kw] is passed on top
    of the resource's own dialect: the caller's value, else the dialect's,
    else the default of [CopyFromCSV.__init__]. *)
Definition effective {A} (fallback : A) (caller own : option A) : A :=
  match caller with
  | Some v => v
  | None =>
      match own with
      | Some v => v
      | None => fallback
      end
  end.

(** ** A sample deployment *)

Module Sample.

Definition add_row (t row : string) (db : DB) : DB :=
  <[t := default [] (db !! t) ++ [row]]> db.

(** An engine that appends the statement text as a row of [t]; the
    database [down] leaves a partial row and reports an error. *)
Definition engine (b : Bind) (sql : string) (db : DB) : DB * option exn :=
  if String.eqb (url_database b) "down"
  then (add_row "t" "partial" db, Some (ExternalError "OperationalError"))
  else (add_row "t" sql db, None).

(** A [sqlite3] that imports one row and stays silent. *)
Definition quiet_sqlite3 (cmd : list string) (db : DB) : string * DB :=
  ("", add_row "t" "1,2" db).

(** A [sqlite3] that imports the well-formed row and reports the
    malformed one on its output. *)
Definition noisy_sqlite3 (cmd : list string) (db : DB) : string * DB :=
  ("data.csv:2: expected 2 columns but found 3 - extras ignored",
   add_row "t" "1,2" db).

Definition relocated (target : kind) (src : resource) (kw : kwargs) : resource :=
  {| rkind := target;
     path := (if subkind target (S3 CSV) then "s3://tmp/" else "/tmp/") +:+ "copy.csv";
     has_header :=
       match kw_extras kw !! "has_header" with
       | Some (VBool b) => Some b
       | _ => has_header src
       end;
     dialect := dialect src |}.

Definition render (c : CopyCommand) : string :=
  "COPY " +:+ default "" (schema_name c) +:+ "." +:+ table_name c +:+ nl +:+
  "  FROM '" +:+ data_location c +:+ "'" +:+ nl +:+
  "  CSV IGNOREHEADER " +:+ pretty (opt_ignore_header (options c)) +:+ "  ;" +:+ nl.

Definition make_env (proc : list string -> DB -> string * DB) : Env :=
  {| convert := fun target src kw => Ok (relocated target src kw);
     append := fun tbl _ _ => ret tbl;
     infer_header := fun _ => Ok true;
     find_executable := fun exe => String.eqb exe "sqlite3";
     sqlite3 := proc;
     redshift_installed := true;
     boto_get := fun _ key => Some ("<" +:+ key +:+ ">");
     default_schema_name := fun _ => Some "public";
     render_CopyCommand := render;
     engine_execute := engine;
     reflect_columns := fun _ _ _ => ["a"; "b"] |}.

Definition env : Env := make_env quiet_sqlite3.
Definition noisy_env : Env := make_env noisy_sqlite3.

Definition table_on (d db : string) : Table :=
  {| name := "t"; schema := None;
     bind := {| dialect_name := d; url_database := db |};
     columns := ["a"; "b"] |}.

Definition local_csv : resource :=
  {| rkind := CSV; path := "data.csv"; has_header := Some true;
     dialect := no_kwargs |}.

Definition s3_csv : resource :=
  {| rkind := S3 CSV; path := "s3://bucket/data.csv"; has_header := Some true;
     dialect := no_kwargs |}.

Definition ssh_csv : resource :=
  {| rkind := Temp (SSH CSV); path := "/remote/data.csv"; has_header := None;
     dialect := no_kwargs |}.

Definition w0 : World := {| tables := ∅; pending := None; log := [] |}.

(** A clause element over [tbl] and [csv] with the default options. *)
Definition clause (tbl : Table) (csv : resource) : CopyFromCSV :=
  {| element := tbl; csv := csv; delimiter := ","; header := Some true;
     na_value := ""; lineterminator := "\n";
     quotechar := String dquote ""; escapechar := "\\";
     encoding := "utf8"; skiprows := 0; attrs := ∅ |}.

Definition with_encoding (enc : string) (el : CopyFromCSV) : CopyFromCSV :=
  {| element := element el; csv := csv el; delimiter := delimiter el;
     header := header el; na_value := na_value el;
     lineterminator := lineterminator el; quotechar := quotechar el;
     escapechar := escapechar el; encoding := enc; skiprows := skiprows el;
     attrs := attrs el |}.

Definition with_na_value (na : string) (el : CopyFromCSV) : CopyFromCSV :=
  {| element := element el; csv := csv el; delimiter := delimiter el;
     header := header el; na_value := na;
     lineterminator := lineterminator el; quotechar := quotechar el;
     escapechar := escapechar el; encoding := encoding el;
     skiprows := skiprows el; attrs := attrs el |}.

Definition with_attr (key : string) (v : pyval) (el : CopyFromCSV) : CopyFromCSV :=
  {| element := element el; csv := csv el; delimiter := delimiter el;
     header := header el; na_value := na_value el;
     lineterminator := lineterminator el; quotechar := quotechar el;
     escapechar := escapechar el; encoding := encoding el;
     skiprows := skiprows el; attrs := <[key := v]> (attrs el) |}.

End Sample.

(** ** Further sample values *)

Module Scenario.

(** A resource whose own dialect names a delimiter, a null token, an
    encoding, a header flag and the [local] keyword. *)
Definition piped_dialect : kwargs :=
  {| kw_delimiter := Some "|"; kw_header := Some (Some true);
     kw_na_value := Some "NA"; kw_lineterminator := None;
     kw_quotechar := None; kw_escapechar := None;
     kw_encoding := Some "latin1"; kw_skiprows := Some 1;
     kw_extras := {["local" := VStr "LOCAL"]} |}.

Definition piped_csv : resource :=
  {| rkind := CSV; path := "piped.csv"; has_header := None;
     dialect := piped_dialect |}.

(** A caller that overrides the delimiter and passes [header=None]. *)
Definition caller_kw : kwargs :=
  {| kw_delimiter := Some ";"; kw_header := Some None;
     kw_na_value := None; kw_lineterminator := None;
     kw_quotechar := None; kw_escapechar := None;
     kw_encoding := None; kw_skiprows := None;
     kw_extras := {["compression" := VStr "gzip"]} |}.

(** A caller that already passes [has_header]. *)
Definition header_kw : kwargs :=
  {| kw_delimiter := None; kw_header := None;
     kw_na_value := None; kw_lineterminator := None;
     kw_quotechar := None; kw_escapechar := None;
     kw_encoding := None; kw_skiprows := None;
     kw_extras := {["has_header" := VBool false]} |}.

(** Deployments that differ from [Sample.env] in one collaborator. *)
Definition no_route_env : Env :=
  {| convert := fun _ _ _ => Raise (ExternalError "NotImplementedError");
     append := append Sample.env;
     infer_header := infer_header Sample.env;
     find_executable := find_executable Sample.env;
     sqlite3 := sqlite3 Sample.env;
     redshift_installed := true;
     boto_get := boto_get Sample.env;
     default_schema_name := default_schema_name Sample.env;
     render_CopyCommand := render_CopyCommand Sample.env;
     engine_execute := engine_execute Sample.env;
     reflect_columns := reflect_columns Sample.env |}.

Definition no_sqlite_env : Env :=
  {| convert := convert Sample.env;
     append := append Sample.env;
     infer_header := infer_header Sample.env;
     find_executable := fun _ => false;
     sqlite3 := sqlite3 Sample.env;
     redshift_installed := true;
     boto_get := boto_get Sample.env;
     default_schema_name := default_schema_name Sample.env;
     render_CopyCommand := render_CopyCommand Sample.env;
     engine_execute := engine_execute Sample.env;
     reflect_columns := reflect_columns Sample.env |}.

Definition blind_env : Env :=
  {| convert := convert Sample.env;
     append := append Sample.env;
     infer_header := fun _ => Raise (ExternalError "IOError");
     find_executable := find_executable Sample.env;
     sqlite3 := sqlite3 Sample.env;
     redshift_installed := true;
     boto_get := boto_get Sample.env;
     default_schema_name := default_schema_name Sample.env;
     render_CopyCommand := render_CopyCommand Sample.env;
     engine_execute := engine_execute Sample.env;
     reflect_columns := reflect_columns Sample.env |}.

End Scenario.

(** * Properties *)

Example strip_demo : PyStr.strip ("  a b " +:+ PyStr.nl) = "a b".
Proof. reflexivity. Qed.
Example repr_demo :
  PyStr.repr "" = "''" /\
  PyStr.repr "a'b" = String PyStr.dquote ("a'b" +:+ String PyStr.dquote "") /\
  PyStr.repr ("a\" +:+ PyStr.nl) = "'a\\\n'".
Proof. repeat split; reflexivity. Qed.
Example collapse_demo :
  PyStr.drop_ws_before_semi (PyStr.collapse_ws ("a  " +:+ PyStr.nl +:+ " b  ;")) = "a b;".
Proof. reflexivity. Qed.
Example lower_demo : PyStr.lower "UTF-8" = "utf-8" /\ PyStr.upper "True" = "TRUE".
Proof. split; reflexivity. Qed.
Example pretty_demo : pretty (12 : Z) = "12" /\ pretty (-3 : Z) = "-3".
Proof. split; reflexivity. Qed.

(** ** Stripping a rendered template *)

Section Strip.

Lemma all_space_app a b : all_space (a +:+ b) = (all_space a && all_space b)%bool.
Proof.
  induction a as [|c a IH]; simpl; [reflexivity|].
  rewrite IH. apply andb_assoc.
Qed.

Lemma lstrip_app_space a b : all_space a = true -> lstrip (a +:+ b) = lstrip b.
Proof.
  induction a as [|c a IH]; simpl; [reflexivity|].
  destruct (is_space c); simpl; [exact IH | discriminate].
Qed.

Lemma rstrip_app a b : all_space b = false -> rstrip (a +:+ b) = a +:+ rstrip b.
Proof.
  intros Hb. induction a as [|c a IH]; [reflexivity|].
  change (String c a +:+ b) with (String c (a +:+ b)).
  cbn [rstrip]. change (all_space (String c (a +:+ b)))
    with (is_space c && all_space (a +:+ b))%bool.
  rewrite all_space_app, Hb, andb_false_r, andb_false_r, IH.
  reflexivity.
Qed.

Lemma all_space_app_false a b : all_space b = false -> all_space (a +:+ b) = false.
Proof. intros Hb. rewrite all_space_app, Hb. apply andb_false_r. Qed.

End Strip.

Ltac not_all_space :=
  first [ reflexivity | apply all_space_app_false; not_all_space ].

Ltac peel_rstrip := repeat (rewrite rstrip_app by not_all_space).

(** ** The mysql and postgres compilers *)

Lemma mysql_text (el : CopyFromCSV) :
  na_value el = "" ->
  compile_from_csv_mysql el =
  Ok (mysql_statement el (synonym "utf-8" "utf8" (encoding el))).
Proof.
  intros Hna. unfold compile_from_csv_mysql. rewrite Hna. cbn [String.eqb negb].
  f_equal. unfold strip.
  rewrite lstrip_app_space by reflexivity.
  change (lstrip ("        LOAD DATA " +:+ ?x)) with ("LOAD DATA " +:+ x).
  peel_rstrip. reflexivity.
Qed.

Lemma postgres_text (el : CopyFromCSV) :
  compile_from_csv_postgres el =
  Ok (postgres_statement el (upper (py_str (py_of_header (header el))))
                            (synonym "utf8" "utf-8" (encoding el))).
Proof.
  unfold compile_from_csv_postgres. f_equal. unfold strip.
  rewrite lstrip_app_space by reflexivity.
  change (lstrip ("    COPY " +:+ ?x)) with ("COPY " +:+ x).
  peel_rstrip. reflexivity.
Qed.

Lemma synonym_hit key value enc : lower enc = key -> synonym key value enc = value.
Proof. intros H. unfold synonym. rewrite H, String.eqb_refl. reflexivity. Qed.

Lemma synonym_miss key value enc :
  lower enc <> key -> enc <> "" -> synonym key value enc = enc.
Proof.
  intros Hk He. unfold synonym.
  destruct (String.eqb_spec (lower enc) key) as [E|_]; [contradiction|].
  destruct (String.eqb_spec enc "") as [E|_]; [contradiction|reflexivity].
Qed.

Lemma compile_mysql_lift env el w :
  compile env "mysql" el w = (compile_from_csv_mysql el, w).
Proof. reflexivity. Qed.

Lemma compile_postgres_lift env el w :
  compile env "postgresql" el w = (compile_from_csv_postgres el, w).
Proof. reflexivity. Qed.

(** C4. The mysql compiler refuses every non-empty null-value option with
    a [ValueError] and returns no command; with the empty null-value option
    it returns one [LOAD DATA ... LINES;] statement. *)
Theorem mysql_null_value_gate (env : Env) (el : CopyFromCSV) (w : World) :
  (na_value el <> "" ->
   compile env "mysql" el w =
   (Raise (ValueError "MySQL does not support custom NULL values"), w)) /\
  (na_value el = "" ->
   compile env "mysql" el w =
   (Ok (mysql_statement el (synonym "utf-8" "utf8" (encoding el))), w)).
Proof.
  rewrite compile_mysql_lift. split; intros Hna.
  - unfold compile_from_csv_mysql.
    destruct (String.eqb_spec (na_value el) "") as [E|_]; [contradiction|].
    reflexivity.
  - rewrite mysql_text by exact Hna. reflexivity.
Qed.

Lemma mysql_null_value_gate_witness :
  compile Sample.env "mysql"
    (Sample.with_na_value "NA" (Sample.clause (Sample.table_on "mysql" "db") Sample.local_csv))
    Sample.w0 =
  (Raise (ValueError "MySQL does not support custom NULL values"), Sample.w0) /\
  compile Sample.env "mysql"
    (Sample.clause (Sample.table_on "mysql" "db") Sample.local_csv) Sample.w0 =
  (Ok (mysql_statement (Sample.clause (Sample.table_on "mysql" "db") Sample.local_csv) "utf8"),
   Sample.w0).
Proof.
  split.
  - apply (proj1 (mysql_null_value_gate Sample.env _ Sample.w0)). discriminate.
  - apply (proj2 (mysql_null_value_gate Sample.env
                    (Sample.clause (Sample.table_on "mysql" "db") Sample.local_csv)
                    Sample.w0)).
    reflexivity.
Defined.

(** C10. The two compilers normalise the encoding name in opposite
    directions: postgres writes [utf8], in any letter case, as [utf-8] in
    its ENCODING clause and every other non-empty name as given; mysql
    writes [utf-8], in any letter case, as [utf8] in its CHARACTER SET
    clause. *)
Theorem encoding_normalisation (el : CopyFromCSV) :
  let hdr := upper (py_str (py_of_header (header el))) in
  (lower (encoding el) = "utf8" ->
   compile_from_csv_postgres el = Ok (postgres_statement el hdr "utf-8")) /\
  (lower (encoding el) <> "utf8" -> encoding el <> "" ->
   compile_from_csv_postgres el = Ok (postgres_statement el hdr (encoding el))) /\
  (lower (encoding el) = "utf-8" -> na_value el = "" ->
   compile_from_csv_mysql el = Ok (mysql_statement el "utf8")).
Proof.
  intros hdr. split; [|split].
  - intros H. rewrite postgres_text, (synonym_hit _ _ _ H). reflexivity.
  - intros H He. rewrite postgres_text, (synonym_miss _ _ _ H He). reflexivity.
  - intros H Hna. rewrite (mysql_text _ Hna), (synonym_hit _ _ _ H). reflexivity.
Qed.

Lemma encoding_normalisation_witness :
  let el := Sample.clause (Sample.table_on "postgresql" "db") Sample.local_csv in
  compile_from_csv_postgres (Sample.with_encoding "UTF8" el) =
  Ok (postgres_statement (Sample.with_encoding "UTF8" el) "TRUE" "utf-8") /\
  compile_from_csv_postgres (Sample.with_encoding "Latin1" el) =
  Ok (postgres_statement (Sample.with_encoding "Latin1" el) "TRUE" "Latin1") /\
  compile_from_csv_mysql (Sample.with_encoding "Utf-8" el) =
  Ok (mysql_statement (Sample.with_encoding "Utf-8" el) "utf8").
Proof.
  intros el. split; [|split].
  - apply (proj1 (encoding_normalisation (Sample.with_encoding "UTF8" el))).
    reflexivity.
  - apply (proj1 (proj2 (encoding_normalisation (Sample.with_encoding "Latin1" el))));
      discriminate.
  - apply (proj2 (proj2 (encoding_normalisation (Sample.with_encoding "Utf-8" el))));
      reflexivity.
Defined.

(** ** [CopyFromCSV.__init__] and the header flag *)

Lemma init_inversion env tbl src kw el :
  CopyFromCSV_init env tbl src kw = Ok el ->
  exists b, header_priority env kw src = Ok b /\ header el = Some b /\
            csv el = src /\ element el = tbl.
Proof.
  unfold CopyFromCSV_init, header_priority.
  destruct (_ || _ || _)%bool; [discriminate|].
  destruct (kw_header kw) as [[o|]|];
    [ | destruct (has_header src) as [h|]; [|destruct (infer_header env src) as [i|]]
      | destruct (has_header src) as [h|]; [|destruct (infer_header env src) as [i|]] ];
    try discriminate;
    (destruct (has_key (kw_extras kw) "bind"); [discriminate|]);
    intros [= <-]; eexists; repeat split; reflexivity.
Qed.

Lemma init_total env tbl src kw b :
  header_priority env kw src = Ok b ->
  has_key (kw_extras kw) "self" = false ->
  has_key (kw_extras kw) "element" = false ->
  has_key (kw_extras kw) "csv" = false ->
  has_key (kw_extras kw) "bind" = false ->
  exists el, CopyFromCSV_init env tbl src kw = Ok el /\ header el = Some b.
Proof.
  unfold CopyFromCSV_init, header_priority. intros Hp -> -> -> ->. simpl.
  destruct (kw_header kw) as [[o|]|];
    [ | destruct (has_header src) as [h|] | destruct (has_header src) as [h|] ];
    try rewrite Hp; injection Hp as <- || idtac; eexists; split; reflexivity.
Qed.

(** C2. Every clause element that [CopyFromCSV] constructs carries a
    concrete boolean header flag, chosen by priority: the caller's override
    when it is not [None], else the resource's own header state when it is
    not [None], else the value inferred from the content.  The flag is what
    the compilers then print: [-header]/[-noheader] for sqlite and
    [HEADER TRUE]/[HEADER FALSE] for postgres, never an unknown. *)
Theorem header_resolved_by_priority (env : Env) (tbl : Table) (src : resource)
    (kw : kwargs) (el : CopyFromCSV) :
  CopyFromCSV_init env tbl src kw = Ok el ->
  exists b : bool,
    header el = Some b /\
    (forall o, kw_header kw = Some (Some o) -> b = o) /\
    (forall h, kw_header kw = None \/ kw_header kw = Some None ->
               has_header src = Some h -> b = h) /\
    (kw_header kw = None \/ kw_header kw = Some None ->
     has_header src = None -> infer_header env src = Ok b) /\
    header_priority env kw src = Ok b /\
    nth 3 (sqlite_cmd el) "" = (if b then "-header" else "-noheader") /\
    compile_from_csv_postgres el =
    Ok (postgres_statement el (bool_keyword b)
                           (synonym "utf8" "utf-8" (encoding el))).
Proof.
  intros Hinit. destruct (init_inversion _ _ _ _ _ Hinit) as (b & Hp & Hh & _ & _).
  exists b. repeat split.
  - exact Hh.
  - intros o Ho. unfold header_priority in Hp. rewrite Ho in Hp. congruence.
  - intros h [Hk|Hk] Hs; unfold header_priority in Hp;
      rewrite Hk, Hs in Hp; congruence.
  - intros [Hk|Hk] Hs; unfold header_priority in Hp;
      rewrite Hk, Hs in Hp; exact Hp.
  - exact Hp.
  - unfold sqlite_cmd. rewrite Hh. destruct b; reflexivity.
  - rewrite postgres_text, Hh. destruct b; reflexivity.
Qed.

Lemma header_resolved_by_priority_witness :
  exists el b,
    CopyFromCSV_init Sample.env (Sample.table_on "postgresql" "db")
      Sample.ssh_csv no_kwargs = Ok el /\
    header el = Some b /\
    header_priority Sample.env no_kwargs Sample.ssh_csv = Ok b.
Proof.
  eexists.
  destruct (header_resolved_by_priority Sample.env
              (Sample.table_on "postgresql" "db") Sample.ssh_csv no_kwargs _
              eq_refl) as (b & Hh & _ & _ & _ & Hp & _).
  exists b. split; [reflexivity|]. split; assumption.
Defined.

(** ** The redshift compiler *)

(** C3. The redshift compiler answers every resource that is not an
    instance of [S3(CSV)], and every path that does not start with [s3://],
    with an [AssertionError] and no command; for a cloud-resident resource
    with such a path it never raises that error. *)
Theorem redshift_precondition (env : Env) (el : CopyFromCSV) :
  (isinstance (csv el) (S3 CSV) = false \/
   startswith (path (csv el)) "s3://" = false ->
   compile_from_csv_redshift env el = Raise (AssertionError "") /\
   forall w, redshift_installed env = true ->
             compile env "redshift" el w = (Raise (AssertionError ""), w)) /\
  (isinstance (csv el) (S3 CSV) = true ->
   startswith (path (csv el)) "s3://" = true ->
   forall msg, compile_from_csv_redshift env el <> Raise (AssertionError msg)).
Proof.
  split.
  - intros Hbad.
    assert (E : compile_from_csv_redshift env el = Raise (AssertionError "")).
    { unfold compile_from_csv_redshift.
      destruct (isinstance (csv el) (S3 CSV)); simpl; [|reflexivity].
      destruct Hbad as [Hbad|Hbad]; [discriminate|]. rewrite Hbad. reflexivity. }
    split; [exact E|]. intros w Hinst. unfold compile. simpl.
    rewrite Hinst. unfold lift. rewrite E. reflexivity.
  - intros Hs3 Hpath msg. unfold compile_from_csv_redshift.
    rewrite Hs3, Hpath. simpl.
    destruct (header el); [|discriminate].
    destruct (getattr el "schema_name" VNone); discriminate.
Qed.

Lemma redshift_precondition_witness :
  compile_from_csv_redshift Sample.env
    (Sample.clause (Sample.table_on "redshift" "db") Sample.local_csv) =
  Raise (AssertionError "") /\
  compile_from_csv_redshift Sample.env
    (Sample.clause (Sample.table_on "redshift" "db") Sample.s3_csv) <>
  Raise (AssertionError "").
Proof.
  split.
  - apply (proj1 (redshift_precondition Sample.env
                    (Sample.clause (Sample.table_on "redshift" "db") Sample.local_csv))).
    left. reflexivity.
  - apply (proj2 (redshift_precondition Sample.env
                    (Sample.clause (Sample.table_on "redshift" "db") Sample.s3_csv)));
      reflexivity.
Defined.

(** Without an override the schema handed to [CopyCommand] is the table's
    own, or the engine's default when the table has none. *)
Lemma redshift_schema_fallback env el b :
  isinstance (csv el) (S3 CSV) = true ->
  startswith (path (csv el)) "s3://" = true ->
  header el = Some b ->
  getattr el "schema_name" VNone = VNone ->
  exists cmd,
    schema_name cmd = or_default (schema (element el))
                                 (default_schema_name env (bind (element el))) /\
    opt_ignore_header (options cmd) = (if b then 1 else 0) /\
    compile_from_csv_redshift env el =
    Ok (strip (drop_ws_before_semi (collapse_ws (render_CopyCommand env cmd)))).
Proof.
  intros Hs3 Hpath Hh Hattr. unfold compile_from_csv_redshift.
  rewrite Hs3, Hpath, Hh, Hattr. simpl. eexists. split; [|split].
  3: reflexivity.
  all: reflexivity.
Qed.

(** With an override the local variable is never bound. *)
Lemma redshift_schema_override env el b :
  isinstance (csv el) (S3 CSV) = true ->
  startswith (path (csv el)) "s3://" = true ->
  header el = Some b ->
  getattr el "schema_name" VNone <> VNone ->
  compile_from_csv_redshift env el = Raise (UnboundLocalError "schema_name").
Proof.
  intros Hs3 Hpath Hh Hattr. unfold compile_from_csv_redshift.
  rewrite Hs3, Hpath, Hh. simpl.
  destruct (getattr el "schema_name" VNone); [contradiction| | |]; reflexivity.
Qed.

(** C5. With the caller's override [schema_name='analytics'] on a
    cloud-resident resource, the redshift compiler raises
    [UnboundLocalError] where the override should have been used as the
    schema name. *)
Theorem redshift_schema_override_unbound :
  compile_from_csv_redshift Sample.env
    (Sample.with_attr "schema_name" (VStr "analytics")
       (Sample.clause (Sample.table_on "redshift" "db") Sample.s3_csv)) =
  Raise (UnboundLocalError "schema_name").
Proof.
  apply (redshift_schema_override _ _ true); try reflexivity. discriminate.
Qed.

(** ** The relocation step *)

Lemma request_convert_run env target src kw w :
  request_convert env target src kw w =
  (convert env target src kw,
   {| tables := tables w; pending := pending w;
      log := log w ++ [EvConvert target src] |}).
Proof. reflexivity. Qed.

(** The four ways through the [if]/[elif] chain. *)
Lemma relocate_to_cloud env tbl src kw w :
  dialect_name (bind tbl) = "redshift" -> isinstance src (S3 CSV) = false ->
  relocate env tbl src kw w =
  (do moved <- request_convert env (Temp (S3 CSV)) src kw; ret (Proceed moved)) w.
Proof. intros Hd Hs. unfold relocate. rewrite Hd, Hs. reflexivity. Qed.

Lemma relocate_to_local env tbl src kw w :
  dialect_name (bind tbl) <> "redshift" -> isinstance src (S3 CSV) = true ->
  relocate env tbl src kw w =
  (if has_key (kw_extras kw) "has_header"
   then raise (TypeError "convert() got multiple values for keyword argument 'has_header'")
   else do moved <- request_convert env (Temp CSV) src
                      (with_extra "has_header" (py_of_header (has_header src)) kw);
        ret (Proceed moved)) w.
Proof.
  intros Hd Hs. unfold relocate. rewrite Hs.
  destruct (String.eqb_spec (dialect_name (bind tbl)) "redshift"); [contradiction|].
  reflexivity.
Qed.

Lemma relocate_to_remote env tbl src kw w :
  dialect_name (bind tbl) = "hive" -> isinstance src (S3 CSV) = false ->
  relocate env tbl src kw w =
  (do moved <- request_convert env (Temp (SSH CSV)) src kw;
   do out <- append env tbl moved kw;
   ret (Return out)) w.
Proof. intros Hd Hs. unfold relocate. rewrite Hd, Hs. reflexivity. Qed.

Lemma relocate_nothing env tbl src kw w :
  dialect_name (bind tbl) <> "hive" -> cloud_residency_agrees tbl src = true ->
  relocate env tbl src kw w = (Ok (Proceed src), w).
Proof.
  unfold cloud_residency_agrees, requires_cloud, relocate. intros Hd Hm.
  apply eqb_prop in Hm. rewrite Hm.
  destruct (String.eqb_spec (dialect_name (bind tbl)) "redshift") as [E|E]; simpl.
  - rewrite E. reflexivity.
  - destruct (String.eqb_spec (dialect_name (bind tbl)) "hive"); [contradiction|].
    reflexivity.
Qed.




Lemma sample_convert_honours_target : convert_honours_target Sample.env.
Proof. intros target src kw out [= <-]. reflexivity. Qed.





(** C8, as stated, fails: a resource that already sits on the remote host
    is converted again for a hive table. *)
Lemma hive_relocates_matching_resource :
  cloud_residency_agrees (Sample.table_on "hive" "db") Sample.ssh_csv = true /\
  isinstance Sample.ssh_csv (SSH CSV) = true /\
  log (snd (relocate Sample.env (Sample.table_on "hive" "db") Sample.ssh_csv
              no_kwargs Sample.w0)) =
  [EvConvert (Temp (SSH CSV)) Sample.ssh_csv] /\
  relocate Sample.env (Sample.table_on "hive" "db") Sample.ssh_csv no_kwargs
    Sample.w0 <> (Ok (Proceed Sample.ssh_csv), Sample.w0).
Proof.
  repeat split. intros H. apply (f_equal fst) in H. vm_compute in H. discriminate H.
Qed.

(** C8, amended. For every engine but hive, a resource that is already
    cloud-resident exactly when the engine is redshift leaves the
    relocation step unchanged, with no conversion requested; running the
    step again on its outcome changes nothing either. *)
Theorem relocation_idempotent_off_hive (env : Env) (tbl : Table) (src : resource)
    (kw : kwargs) (w : World) :
  dialect_name (bind tbl) <> "hive" ->
  cloud_residency_agrees tbl src = true ->
  relocate env tbl src kw w = (Ok (Proceed src), w) /\
  (do first <- relocate env tbl src kw;
   match first with
   | Proceed again => relocate env tbl again kw
   | Return out => ret (Return out)
   end) w = relocate env tbl src kw w.
Proof.
  intros Hd Hm. pose proof (relocate_nothing env tbl src kw w Hd Hm) as H.
  split; [exact H|]. unfold bind_M. rewrite H. exact H.
Qed.

Lemma relocation_idempotent_off_hive_witness :
  relocate Sample.env (Sample.table_on "redshift" "db") Sample.s3_csv no_kwargs
    Sample.w0 = (Ok (Proceed Sample.s3_csv), Sample.w0).
Proof.
  apply (proj1 (relocation_idempotent_off_hive Sample.env
                  (Sample.table_on "redshift" "db") Sample.s3_csv no_kwargs
                  Sample.w0 ltac:(discriminate) eq_refl)).
Defined.

(** ** Effects of the compilers *)

Lemma compile_frame env d el w :
  d <> "sqlite" -> snd (compile env d el w) = w.
Proof.
  intros Hd. unfold compile.
  destruct (String.eqb_spec d "sqlite"); [contradiction|].
  destruct (String.eqb d "mysql"); [reflexivity|].
  destruct (String.eqb d "postgresql"); [reflexivity|].
  destruct (String.eqb d "redshift" && redshift_installed env)%bool; reflexivity.
Qed.

Lemma compile_sqlite_run env el w :
  find_executable env "sqlite3" = true ->
  compile env "sqlite" el w =
  (if String.eqb (fst (sqlite3 env (sqlite_cmd el) (tables w))) ""
   then Ok ""
   else Raise (AssertionError ("bad query " +:+ join " " (sqlite_cmd el))),
   {| tables := snd (sqlite3 env (sqlite_cmd el) (tables w));
      pending := pending w;
      log := log w ++ [EvSpawn (sqlite_cmd el)] |}).
Proof.
  intros Hexe. unfold compile. simpl.
  unfold compile_from_csv_sqlite, bind_M, Popen_communicate. rewrite Hexe. simpl.
  destruct (sqlite3 env (sqlite_cmd el) (tables w)) as [out db]. simpl.
  destruct (String.eqb out ""); reflexivity.
Qed.

(** C9, as stated, fails: the sqlite compiler spawns [sqlite3] and the rows
    are in the table when it returns. *)
Lemma sqlite_compiler_executes_load :
  let el := Sample.clause (Sample.table_on "sqlite" "db.sqlite") Sample.local_csv in
  compile Sample.env "sqlite" el Sample.w0 =
  (Ok "",
   {| tables := {["t" := ["1,2"]]}; pending := None;
      log := [EvSpawn (sqlite_cmd el)] |}) /\
  ~ pure_compiler "sqlite".
Proof.
  intros el. split; [reflexivity|].
  intros H. destruct (H Sample.env el Sample.w0) as [Hw _].
  apply (f_equal log) in Hw. vm_compute in Hw. discriminate Hw.
Qed.

(** C9, amended. The mysql and postgresql compilers are pure functions of
    the clause element.  The redshift compiler changes nothing, though it
    reads the credential store and the engine's default schema.  The sqlite
    compiler, once [sqlite3] is found, runs the import itself: the tool's
    effect on the tables and the spawned command are part of the world it
    returns, and its result is the empty statement exactly when the tool
    printed nothing. *)
Theorem compiler_effects (env : Env) (el : CopyFromCSV) (w : World) :
  pure_compiler "mysql" /\
  pure_compiler "postgresql" /\
  snd (compile env "redshift" el w) = w /\
  (find_executable env "sqlite3" = true ->
   compile env "sqlite" el w =
   (if String.eqb (fst (sqlite3 env (sqlite_cmd el) (tables w))) ""
    then Ok ""
    else Raise (AssertionError ("bad query " +:+ join " " (sqlite_cmd el))),
    {| tables := snd (sqlite3 env (sqlite_cmd el) (tables w));
       pending := pending w;
       log := log w ++ [EvSpawn (sqlite_cmd el)] |})).
Proof.
  split; [|split; [|split]].
  - intros env0 el0 w0. split; reflexivity.
  - intros env0 el0 w0. split; reflexivity.
  - apply compile_frame. discriminate.
  - apply compile_sqlite_run.
Qed.

Lemma compiler_effects_witness :
  let el := Sample.clause (Sample.table_on "sqlite" "db.sqlite") Sample.local_csv in
  compile Sample.noisy_env "sqlite" el Sample.w0 =
  (Raise (AssertionError ("bad query " +:+ join " " (sqlite_cmd el))),
   {| tables := {["t" := ["1,2"]]}; pending := None;
      log := [EvSpawn (sqlite_cmd el)] |}).
Proof.
  intros el.
  exact (proj2 (proj2 (proj2 (compiler_effects Sample.noisy_env el Sample.w0)))
           eq_refl).
Defined.

(** ** The transaction around [conn.execute] *)

Lemma load_transactional env tbl src kw w r w' :
  dialect_name (bind tbl) <> "sqlite" ->
  load env tbl src kw w = (r, w') ->
  transactional_outcome env tbl src kw w r w'.
Proof.
  intros Hd. unfold load, bind_M, lift.
  destruct (CopyFromCSV_init env tbl src (merge (dialect src) kw)) as [stmt|e0] eqn:Hinit.
  2:{ intros [= <- <-]. simpl. rewrite Hinit. auto. }
  unfold with_begin, conn_execute, bind_M.
  pose proof (compile_frame env _ stmt (begin w) Hd) as Hfr.
  destruct (compile env (dialect_name (bind tbl)) stmt (begin w)) as [[sql|e1] w2] eqn:Hc;
    simpl in Hfr; subst w2.
  2:{ intros [= <- <-]. simpl. rewrite Hinit. split; [reflexivity|].
      right. left. exists stmt. rewrite Hc, <- app_assoc. auto. }
  unfold run_statement. simpl.
  destruct (engine_execute env (bind tbl) sql (tables w)) as [db [e2|]] eqn:He.
  - intros [= <- <-]. simpl. rewrite Hinit. split; [reflexivity|]. right. right.
    exists stmt, sql, db. rewrite Hc, He, <- !app_assoc. auto.
  - unfold reflect. intros [= <- <-]. simpl. rewrite Hinit.
    exists stmt, sql, db. rewrite Hc, He, <- !app_assoc. simpl. auto 10.
Qed.

(** C7, as stated, fails: with a [sqlite3] that imports a row and then
    reports a malformed one, the call fails with the [AssertionError], the
    transaction is rolled back, and the imported row stays in the table. *)
Lemma sqlite_failure_keeps_imported_rows :
  let tbl := Sample.table_on "sqlite" "db.sqlite" in
  let cmd := sqlite_cmd (Sample.clause tbl Sample.local_csv) in
  append_csv_to_sql_table Sample.noisy_env tbl Sample.local_csv no_kwargs Sample.w0 =
  (Raise (AssertionError ("bad query " +:+ join " " cmd)),
   {| tables := {["t" := ["1,2"]]}; pending := None;
      log := [EvBegin; EvSpawn cmd; EvRollback] |}) /\
  tables (snd (append_csv_to_sql_table Sample.noisy_env tbl Sample.local_csv
                 no_kwargs Sample.w0)) <> tables Sample.w0.
Proof.
  intros tbl cmd. split; [reflexivity|].
  intros H. apply (f_equal (fun db : DB => db !! "t")) in H.
  vm_compute in H. discriminate H.
Qed.

Lemma relocate_outcome env tbl src kw w res w1 :
  (dialect_name (bind tbl) = "hive" -> isinstance src (S3 CSV) = true) ->
  relocate env tbl src kw w = (res, w1) ->
  tables w1 = tables w /\
  match res with
  | Ok (Return _) => False
  | _ => True
  end.
Proof.
  intros Hnd. unfold relocate.
  destruct (_ && _)%bool.
  { unfold bind_M. rewrite request_convert_run.
    destruct (convert env _ src kw); intros [= <- <-]; split; exact I || reflexivity. }
  destruct (negb _ && isinstance src (S3 CSV))%bool eqn:Hc.
  { destruct (has_key _ _); [intros [= <- <-]; split; exact I || reflexivity|].
    unfold bind_M. rewrite request_convert_run.
    destruct (convert env _ src _); intros [= <- <-]; split; exact I || reflexivity. }
  destruct (String.eqb_spec (dialect_name (bind tbl)) "hive") as [Hh|Hh].
  { rewrite (Hnd Hh), Hh in Hc. discriminate Hc. }
  intros [= <- <-]. split; exact I || reflexivity.
Qed.

(** C7, amended. For every engine but sqlite, a call that is not handed
    over to the dispatcher runs the compiled command once, inside one
    transaction.  When the engine reports no error the write set is
    committed and the call returns a descriptor of the same table with
    freshly reflected columns.  When relocation, construction, compilation
    or execution fails, the tables are as they were before the call, an
    opened transaction is rolled back, and the error raised is the one the
    caller sees, with no second attempt. *)
Theorem append_is_transactional (env : Env) (tbl : Table) (src : resource)
    (kw : kwargs) (w : World) (r : result Table) (w' : World) :
  dialect_name (bind tbl) <> "sqlite" ->
  (dialect_name (bind tbl) = "hive" -> isinstance src (S3 CSV) = true) ->
  append_csv_to_sql_table env tbl src kw w = (r, w') ->
  (forall e, r = Raise e -> tables w' = tables w) /\
  exists res w1,
    relocate env tbl src kw w = (res, w1) /\
    tables w1 = tables w /\
    match res with
    | Raise e => r = Raise e /\ w' = w1
    | Ok (Proceed moved) => transactional_outcome env tbl moved kw w1 r w'
    | Ok (Return _) => False
    end.
Proof.
  intros Hd Hnd Happ.
  destruct (relocate env tbl src kw w) as [res w1] eqn:Hrel.
  destruct (relocate_outcome _ _ _ _ _ _ _ Hnd Hrel) as [Ht Hres].
  unfold append_csv_to_sql_table, bind_M in Happ. rewrite Hrel in Happ.
  destruct res as [[moved|out]|e0]; [|contradiction|].
  - pose proof (load_transactional _ _ _ _ _ _ _ Hd Happ) as Hout. split.
    + intros e ->. simpl in Hout. destruct Hout as [Hsame _]. congruence.
    + exists (Ok (Proceed moved)), w1. auto.
  - injection Happ as <- <-. split.
    + intros _ _. exact Ht.
    + exists (Raise e0), w1. auto.
Qed.

Lemma append_is_transactional_witness :
  let down := Sample.table_on "mysql" "down" in
  let out := append_csv_to_sql_table Sample.env down Sample.local_csv no_kwargs
               Sample.w0 in
  fst out = Raise (ExternalError "OperationalError") /\
  tables (snd out) = tables Sample.w0.
Proof.
  intros down out. split; [reflexivity|].
  apply (proj1 (append_is_transactional Sample.env down Sample.local_csv
                  no_kwargs Sample.w0 (fst out) (snd out)
                  ltac:(discriminate) ltac:(discriminate) eq_refl)
           (ExternalError "OperationalError")).
  reflexivity.
Defined.

(** * Further properties of the module *)

(** ** The statement clean-up of the redshift compiler *)

Lemma single_spaced_weaken s : single_spaced true s = true -> single_spaced false s = true.
Proof.
  destruct s as [|c r]; [reflexivity|]. simpl.
  destruct (is_space c); [|trivial]. rewrite andb_false_r. discriminate.
Qed.

Lemma collapse_go_single_spaced p s : single_spaced p (collapse_go p s) = true.
Proof.
  revert p. induction s as [|c r IH]; intros p; [reflexivity|].
  simpl. destruct (is_space c) eqn:Hc.
  - destruct p; [apply IH|]. simpl. apply IH.
  - simpl. rewrite Hc. apply IH.
Qed.

Lemma collapse_go_fixed p s : single_spaced p s = true -> collapse_go p s = s.
Proof.
  revert p. induction s as [|c r IH]; intros p; [reflexivity|].
  simpl. destruct (is_space c).
  - intros H. apply andb_prop in H as [H Hr]. apply andb_prop in H as [Hc Hp].
    destruct p; [discriminate|]. apply Ascii.eqb_eq in Hc. subst c.
    rewrite (IH true Hr). reflexivity.
  - intros H. rewrite (IH false H). reflexivity.
Qed.

Lemma all_space_no_semi s : all_space s = true -> ws_then_semi s = false.
Proof.
  induction s as [|c r IH]; [reflexivity|]. simpl.
  destruct (is_space c); [exact IH|discriminate].
Qed.

Lemma ws_then_semi_drop s : ws_then_semi (drop_ws_before_semi s) = ws_then_semi s.
Proof.
  induction s as [|c r IH]; [reflexivity|]. simpl.
  destruct (is_space c) eqn:Hc; simpl.
  - destruct (ws_then_semi r) eqn:Hr; [congruence|]. simpl. rewrite Hc. congruence.
  - rewrite Hc. reflexivity.
Qed.

Lemma ws_then_semi_rstrip s : ws_then_semi (rstrip s) = ws_then_semi s.
Proof.
  induction s as [|c r IH]; [reflexivity|].
  cbn [rstrip]. destruct (all_space (String c r)) eqn:Ha.
  - symmetry. apply all_space_no_semi. exact Ha.
  - simpl. rewrite IH. reflexivity.
Qed.

Lemma drop_no_space_before_semi s : no_space_before_semi (drop_ws_before_semi s) = true.
Proof.
  induction s as [|c r IH]; [reflexivity|]. simpl.
  destruct (is_space c && ws_then_semi r)%bool eqn:Hd; [exact IH|].
  simpl. rewrite ws_then_semi_drop, Hd, IH. reflexivity.
Qed.

Lemma drop_fixed s : no_space_before_semi s = true -> drop_ws_before_semi s = s.
Proof.
  induction s as [|c r IH]; [reflexivity|]. simpl. intros H.
  apply andb_prop in H as [Hc Hr]. apply negb_true_iff in Hc.
  rewrite Hc, (IH Hr). reflexivity.
Qed.

Lemma drop_single_spaced p s :
  single_spaced p s = true -> single_spaced p (drop_ws_before_semi s) = true.
Proof.
  revert p. induction s as [|c r IH]; intros p; [reflexivity|]. simpl.
  destruct (is_space c) eqn:Hc; simpl.
  - intros H. apply andb_prop in H as [H Hr]. apply andb_prop in H as [Hsp Hp].
    destruct (ws_then_semi r).
    + apply negb_true_iff in Hp. subst p. apply IH, single_spaced_weaken, Hr.
    + simpl. rewrite Hc, Hsp, Hp, (IH true Hr). reflexivity.
  - rewrite Hc. apply IH.
Qed.

Lemma lstrip_single_spaced p s :
  single_spaced p s = true -> single_spaced false (lstrip s) = true.
Proof.
  revert p. induction s as [|c r IH]; intros p; [reflexivity|].
  cbn [lstrip]. destruct (is_space c) eqn:Hc.
  - simpl. rewrite Hc. intros H. apply andb_prop in H as [_ Hr]. exact (IH true Hr).
  - simpl. rewrite Hc. trivial.
Qed.

Lemma rstrip_single_spaced p s :
  single_spaced p s = true -> single_spaced p (rstrip s) = true.
Proof.
  revert p. induction s as [|c r IH]; intros p; [reflexivity|].
  cbn [rstrip]. destruct (all_space (String c r)); [reflexivity|].
  simpl. destruct (is_space c).
  - intros H. apply andb_prop in H as [H Hr]. rewrite H, (IH true Hr). reflexivity.
  - apply IH.
Qed.

Lemma lstrip_no_space_before_semi s :
  no_space_before_semi s = true -> no_space_before_semi (lstrip s) = true.
Proof.
  induction s as [|c r IH]; [reflexivity|].
  cbn [lstrip]. destruct (is_space c); [|trivial].
  simpl. intros H. apply andb_prop in H as [_ Hr]. exact (IH Hr).
Qed.

Lemma rstrip_no_space_before_semi s :
  no_space_before_semi s = true -> no_space_before_semi (rstrip s) = true.
Proof.
  induction s as [|c r IH]; [reflexivity|].
  cbn [rstrip]. destruct (all_space (String c r)); [reflexivity|].
  simpl. intros H. apply andb_prop in H as [Hc Hr].
  rewrite ws_then_semi_rstrip, Hc, (IH Hr). reflexivity.
Qed.

Lemma all_space_rstrip s : all_space s = false -> all_space (rstrip s) = false.
Proof.
  induction s as [|c r IH]; [discriminate|]. intros Ha.
  cbn [rstrip]. rewrite Ha. simpl in *.
  destruct (is_space c); [|reflexivity]. simpl in *. exact (IH Ha).
Qed.

Lemma rstrip_idempotent s : rstrip (rstrip s) = rstrip s.
Proof.
  induction s as [|c r IH]; [reflexivity|].
  cbn [rstrip]. destruct (all_space (String c r)) eqn:Ha; [reflexivity|].
  cbn [rstrip].
  assert (Hb : all_space (String c (rstrip r)) = false).
  { simpl in *. destruct (is_space c); [|reflexivity]. simpl in *.
    apply all_space_rstrip. exact Ha. }
  rewrite Hb, IH. reflexivity.
Qed.

Lemma lstrip_first s : first_is_space (lstrip s) = false.
Proof.
  induction s as [|c r IH]; [reflexivity|].
  cbn [lstrip]. destruct (is_space c) eqn:Hc; [exact IH|]. simpl. exact Hc.
Qed.

Lemma lstrip_fixed s : first_is_space s = false -> lstrip s = s.
Proof. destruct s as [|c r]; [reflexivity|]. simpl. intros ->. reflexivity. Qed.

Lemma rstrip_first s : first_is_space s = false -> first_is_space (rstrip s) = false.
Proof.
  destruct s as [|c r]; [reflexivity|]. simpl. intros Hc. rewrite Hc. simpl. exact Hc.
Qed.

Lemma rstrip_last s : last_is_space (rstrip s) = false.
Proof.
  induction s as [|c r IH]; [reflexivity|].
  cbn [rstrip]. destruct (all_space (String c r)) eqn:Ha; [reflexivity|].
  destruct r as [|d r'].
  - simpl in *. rewrite andb_true_r in Ha. exact Ha.
  - cbn [rstrip] in *. destruct (all_space (String d r')) eqn:Hb.
    + simpl in Ha. simpl in Hb. rewrite Hb, andb_true_r in Ha. simpl. exact Ha.
    + exact IH.
Qed.

Lemma strip_idempotent s : strip (strip s) = strip s.
Proof.
  unfold strip.
  rewrite (lstrip_fixed (rstrip (lstrip s))) by apply rstrip_first, lstrip_first.
  apply rstrip_idempotent.
Qed.

Lemma normalise_shape s :
  single_spaced false (normalise_statement s) = true /\
  no_space_before_semi (normalise_statement s) = true /\
  first_is_space (normalise_statement s) = false /\
  last_is_space (normalise_statement s) = false.
Proof.
  unfold normalise_statement, strip, collapse_ws. repeat split.
  - eapply rstrip_single_spaced, lstrip_single_spaced, drop_single_spaced,
      collapse_go_single_spaced.
  - apply rstrip_no_space_before_semi, lstrip_no_space_before_semi,
      drop_no_space_before_semi.
  - apply rstrip_first, lstrip_first.
  - apply rstrip_last.
Qed.

Lemma normalise_idempotent s :
  normalise_statement (normalise_statement s) = normalise_statement s.
Proof.
  destruct (normalise_shape s) as (Hsp & Hsemi & _ & _).
  unfold normalise_statement at 1. unfold collapse_ws.
  rewrite (collapse_go_fixed _ _ Hsp), (drop_fixed _ Hsemi).
  unfold normalise_statement. apply strip_idempotent.
Qed.

Lemma redshift_output_normalised env el out :
  compile_from_csv_redshift env el = Ok out ->
  exists cmd, out = normalise_statement (render_CopyCommand env cmd).
Proof.
  unfold compile_from_csv_redshift.
  destruct (negb (isinstance _ _)); [discriminate|].
  destruct (negb (startswith _ _)); [discriminate|].
  destruct (header el); [|discriminate].
  destruct (getattr el "schema_name" VNone); try discriminate.
  intros [= <-]. eexists. reflexivity.
Qed.

(** X1. Cleaning a statement the redshift compiler returned a second time
    gives the same text. *)
Theorem redshift_statement_clean_up_idempotent (env : Env) (el : CopyFromCSV)
    (out : string) :
  compile_from_csv_redshift env el = Ok out ->
  strip (drop_ws_before_semi (collapse_ws out)) = out.
Proof.
  intros H. destruct (redshift_output_normalised _ _ _ H) as [cmd ->].
  apply normalise_idempotent.
Qed.

Lemma redshift_statement_clean_up_idempotent_witness :
  strip (drop_ws_before_semi
           (collapse_ws "COPY public.t FROM 's3://bucket/data.csv' CSV IGNOREHEADER 1;")) =
  "COPY public.t FROM 's3://bucket/data.csv' CSV IGNOREHEADER 1;".
Proof.
  exact (redshift_statement_clean_up_idempotent Sample.env
           (Sample.clause (Sample.table_on "redshift" "db") Sample.s3_csv) _ eq_refl).
Defined.

(** X2. However [CopyCommand] renders, the statement the redshift compiler
    returns has single spaces as its only whitespace, none of them before a
    semicolon and none at either end. *)
Theorem redshift_statement_shape (env : Env) (el : CopyFromCSV) (out : string) :
  compile_from_csv_redshift env el = Ok out ->
  single_spaced false out = true /\
  no_space_before_semi out = true /\
  first_is_space out = false /\
  last_is_space out = false.
Proof.
  intros H. destruct (redshift_output_normalised _ _ _ H) as [cmd ->].
  apply normalise_shape.
Qed.

Lemma redshift_statement_shape_witness :
  single_spaced false "COPY public.t FROM 's3://bucket/data.csv' CSV IGNOREHEADER 1;" = true.
Proof.
  exact (proj1 (redshift_statement_shape Sample.env
           (Sample.clause (Sample.table_on "redshift" "db") Sample.s3_csv) _ eq_refl)).
Defined.

(** ** What [CopyFromCSV.__init__] builds and when it fails *)

Lemma init_record env tbl src kw el :
  CopyFromCSV_init env tbl src kw = Ok el ->
  exists b,
    header_priority env kw src = Ok b /\
    el = {| element := tbl; csv := src;
            delimiter := default "," (kw_delimiter kw);
            header := Some b;
            na_value := default "" (kw_na_value kw);
            lineterminator := default "\n" (kw_lineterminator kw);
            quotechar := default (String dquote "") (kw_quotechar kw);
            escapechar := default "\\" (kw_escapechar kw);
            encoding := default "utf8" (kw_encoding kw);
            skiprows := default 0 (kw_skiprows kw);
            attrs := kw_extras kw |}.
Proof.
  unfold CopyFromCSV_init, header_priority.
  destruct (_ || _ || _)%bool; [discriminate|].
  destruct (kw_header kw) as [[o|]|];
    [ | destruct (has_header src) as [h|]; [|destruct (infer_header env src) as [i|]]
      | destruct (has_header src) as [h|]; [|destruct (infer_header env src) as [i|]] ];
    try discriminate;
    (destruct (has_key (kw_extras kw) "bind"); [discriminate|]);
    intros [= <-]; eexists; split; reflexivity.
Qed.

Lemma effective_merge {A} (fallback : A) (caller own : option A) :
  default fallback (or_else caller own) = effective fallback caller own.
Proof. destruct caller, own; reflexivity. Qed.

(** X3. In a load, every option is taken from the caller's keywords first,
    from the resource's own dialect second, and from the default of
    [CopyFromCSV] last; the same holds for every extra keyword. *)
Theorem load_option_precedence (env : Env) (tbl : Table) (src : resource)
    (kw : kwargs) (el : CopyFromCSV) :
  CopyFromCSV_init env tbl src (merge (dialect src) kw) = Ok el ->
  delimiter el = effective "," (kw_delimiter kw) (kw_delimiter (dialect src)) /\
  na_value el = effective "" (kw_na_value kw) (kw_na_value (dialect src)) /\
  lineterminator el =
    effective "\n" (kw_lineterminator kw) (kw_lineterminator (dialect src)) /\
  quotechar el =
    effective (String dquote "") (kw_quotechar kw) (kw_quotechar (dialect src)) /\
  escapechar el = effective "\\" (kw_escapechar kw) (kw_escapechar (dialect src)) /\
  encoding el = effective "utf8" (kw_encoding kw) (kw_encoding (dialect src)) /\
  skiprows el = effective 0 (kw_skiprows kw) (kw_skiprows (dialect src)) /\
  forall key fallback,
    getattr el key fallback =
    effective fallback (kw_extras kw !! key) (kw_extras (dialect src) !! key).
Proof.
  intros H. destruct (init_record _ _ _ _ _ H) as (b & _ & ->). simpl.
  rewrite !effective_merge. repeat split.
  intros key fallback. unfold getattr. simpl. rewrite lookup_union.
  destruct (kw_extras kw !! key), (kw_extras (dialect src) !! key); reflexivity.
Qed.

Lemma load_option_precedence_witness :
  exists el,
    CopyFromCSV_init Sample.env (Sample.table_on "mysql" "db") Scenario.piped_csv
      (merge (dialect Scenario.piped_csv) Scenario.caller_kw) = Ok el /\
    delimiter el = ";" /\ na_value el = "NA" /\ lineterminator el = "\n" /\
    getattr el "local" (VStr "") = VStr "LOCAL" /\
    getattr el "compression" (VStr "") = VStr "gzip".
Proof.
  eexists. split; [reflexivity|].
  destruct (load_option_precedence Sample.env (Sample.table_on "mysql" "db")
              Scenario.piped_csv Scenario.caller_kw _ eq_refl)
    as (Hd & Hn & Hl & _ & _ & _ & _ & Hx).
  exact (conj Hd (conj Hn (conj Hl (conj (Hx _ _) (Hx _ _))))).
Defined.

Lemma header_priority_merge env src kw :
  header_priority env (merge (dialect src) kw) src =
  match kw_header kw with
  | Some (Some o) => Ok o
  | Some None => header_priority env no_kwargs src
  | None => header_priority env (dialect src) src
  end.
Proof.
  unfold header_priority, merge. simpl.
  destruct (kw_header kw) as [[o|]|]; reflexivity.
Qed.

(** X4. In a load, a header flag among the caller's keywords wins; when
    the caller passes [header=None] the flag in the resource's dialect is
    hidden and the resource's [has_header], else inference, decides; only
    when the caller says nothing does the dialect's flag count. *)
Theorem load_header_precedence (env : Env) (tbl : Table) (src : resource)
    (kw : kwargs) (el : CopyFromCSV) :
  CopyFromCSV_init env tbl src (merge (dialect src) kw) = Ok el ->
  exists b,
    header el = Some b /\
    match kw_header kw with
    | Some (Some o) => b = o
    | Some None =>
        match has_header src with
        | Some h => b = h
        | None => infer_header env src = Ok b
        end
    | None =>
        match kw_header (dialect src) with
        | Some (Some o) => b = o
        | _ =>
            match has_header src with
            | Some h => b = h
            | None => infer_header env src = Ok b
            end
        end
    end.
Proof.
  intros H. destruct (init_record _ _ _ _ _ H) as (b & Hp & ->).
  exists b. split; [reflexivity|].
  rewrite header_priority_merge in Hp. unfold header_priority in Hp. simpl in Hp.
  destruct (kw_header kw) as [[o|]|].
  - congruence.
  - destruct (has_header src); congruence.
  - destruct (kw_header (dialect src)) as [[o|]|];
      [congruence | destruct (has_header src); congruence
                  | destruct (has_header src); congruence].
Qed.

Lemma load_header_precedence_witness :
  exists el,
    CopyFromCSV_init Sample.env (Sample.table_on "mysql" "db") Scenario.piped_csv
      (merge (dialect Scenario.piped_csv) Scenario.caller_kw) = Ok el /\
    header el = Some true /\
    infer_header Sample.env Scenario.piped_csv = Ok true.
Proof.
  eexists. split; [reflexivity|].
  destruct (load_header_precedence Sample.env (Sample.table_on "mysql" "db")
              Scenario.piped_csv Scenario.caller_kw _ eq_refl) as (b & Hh & Hb).
  simpl in Hb. injection Hb as <-. split; [exact Hh|reflexivity].
Defined.

(** X5. When the caller's [header] or the resource's [has_header] is
    known, the constructor never consults [infer_header]: its result is the
    same whatever inference would have said, also when inference would have
    failed. *)
Theorem header_known_skips_inference (env env' : Env) (tbl : Table)
    (src : resource) (kw : kwargs) (b : bool) :
  kw_header kw = Some (Some b) \/ has_header src = Some b ->
  CopyFromCSV_init env tbl src kw = CopyFromCSV_init env' tbl src kw.
Proof.
  intros Hk. unfold CopyFromCSV_init.
  destruct (_ || _ || _)%bool; [reflexivity|].
  destruct Hk as [Hk|Hk]; rewrite Hk.
  - reflexivity.
  - destruct (kw_header kw) as [[o|]|]; reflexivity.
Qed.

Lemma header_known_skips_inference_witness :
  CopyFromCSV_init Scenario.blind_env (Sample.table_on "mysql" "db")
    Sample.local_csv no_kwargs =
  CopyFromCSV_init Sample.env (Sample.table_on "mysql" "db")
    Sample.local_csv no_kwargs.
Proof.
  apply (header_known_skips_inference Scenario.blind_env Sample.env _ _ _ true).
  right. reflexivity.
Defined.

(** ** Relocation: keywords, failures, repetition *)

(** X6. A resource in S3 bound for any engine but redshift is converted
    with the caller's keywords plus [has_header] set to the resource's own
    header state; a caller that passes [has_header] itself gets a
    [TypeError] before any conversion is requested. *)
Theorem cloud_to_local_keeps_header (env : Env) (tbl : Table) (src : resource)
    (kw : kwargs) (w : World) :
  dialect_name (bind tbl) <> "redshift" ->
  isinstance src (S3 CSV) = true ->
  (has_key (kw_extras kw) "has_header" = true ->
   exists msg, append_csv_to_sql_table env tbl src kw w = (Raise (TypeError msg), w)) /\
  (has_key (kw_extras kw) "has_header" = false ->
   exists kw',
     kw_delimiter kw' = kw_delimiter kw /\
     kw_header kw' = kw_header kw /\
     kw_na_value kw' = kw_na_value kw /\
     kw_lineterminator kw' = kw_lineterminator kw /\
     kw_quotechar kw' = kw_quotechar kw /\
     kw_escapechar kw' = kw_escapechar kw /\
     kw_encoding kw' = kw_encoding kw /\
     kw_skiprows kw' = kw_skiprows kw /\
     kw_extras kw' !! "has_header" = Some (py_of_header (has_header src)) /\
     (forall key, key <> "has_header" -> kw_extras kw' !! key = kw_extras kw !! key) /\
     relocate env tbl src kw w =
     (match convert env (Temp CSV) src kw' with
      | Ok moved => Ok (Proceed moved)
      | Raise e => Raise e
      end,
      {| tables := tables w; pending := pending w;
         log := log w ++ [EvConvert (Temp CSV) src] |})).
Proof.
  intros Hd Hs. split; intros Hk.
  - eexists. unfold append_csv_to_sql_table, bind_M.
    rewrite (relocate_to_local _ _ _ _ _ Hd Hs), Hk. reflexivity.
  - exists (with_extra "has_header" (py_of_header (has_header src)) kw).
    do 8 (split; [reflexivity|]).
    split; [apply lookup_insert_eq|]. split.
    + intros key Hne. simpl. apply lookup_insert_ne. congruence.
    + rewrite (relocate_to_local _ _ _ _ _ Hd Hs), Hk.
      unfold bind_M. rewrite request_convert_run.
      destruct (convert env (Temp CSV) src _); reflexivity.
Qed.

Lemma cloud_to_local_keeps_header_witness :
  (exists msg,
     append_csv_to_sql_table Sample.env (Sample.table_on "mysql" "db")
       Sample.s3_csv Scenario.header_kw Sample.w0 = (Raise (TypeError msg), Sample.w0)) /\
  (exists kw',
     kw_delimiter kw' = Some ";" /\
     kw_extras kw' !! "has_header" = Some (VBool true) /\
     kw_extras kw' !! "compression" = Some (VStr "gzip") /\
     fst (relocate Sample.env (Sample.table_on "mysql" "db") Sample.s3_csv
            Scenario.caller_kw Sample.w0) =
     Ok (Proceed (Sample.relocated (Temp CSV) Sample.s3_csv kw'))).
Proof.
  split.
  - apply (proj1 (cloud_to_local_keeps_header Sample.env (Sample.table_on "mysql" "db")
                    Sample.s3_csv Scenario.header_kw Sample.w0
                    ltac:(discriminate) eq_refl)).
    reflexivity.
  - destruct (proj2 (cloud_to_local_keeps_header Sample.env
                       (Sample.table_on "mysql" "db") Sample.s3_csv
                       Scenario.caller_kw Sample.w0 ltac:(discriminate) eq_refl)
                eq_refl)
      as (kw' & Hd & _ & _ & _ & _ & _ & _ & _ & Hh & Hx & Hrel).
    exists kw'. split; [exact Hd|]. split; [exact Hh|].
    split; [rewrite Hx by discriminate; reflexivity|].
    rewrite Hrel. reflexivity.
Defined.

(** The conversion a call starts with, if any: its target and the
    keywords it passes. *)
Lemma append_conversion_failure env tbl src kw kw' target w e :
  relocate env tbl src kw w =
  (do moved <- request_convert env target src kw'; ret (Proceed moved)) w \/
  relocate env tbl src kw w =
  (do moved <- request_convert env target src kw';
   do out <- append env tbl moved kw;
   ret (Return out)) w ->
  convert env target src kw' = Raise e ->
  append_csv_to_sql_table env tbl src kw w =
  (Raise e, {| tables := tables w; pending := pending w;
               log := log w ++ [EvConvert target src] |}).
Proof.
  intros Hrel Hc. unfold append_csv_to_sql_table, bind_M at 1.
  destruct Hrel as [-> | ->]; unfold bind_M; rewrite request_convert_run, Hc;
    reflexivity.
Qed.

(** X7. When the conversion collaborator fails, the call fails with the
    same error right after the request: no transaction is opened, nothing
    is compiled or executed, the dispatcher is not called and the tables
    are untouched. *)
Theorem conversion_failure_aborts (env : Env) (tbl : Table) (src : resource)
    (kw : kwargs) (w : World) (e : exn) :
  (dialect_name (bind tbl) = "redshift" -> isinstance src (S3 CSV) = false ->
   convert env (Temp (S3 CSV)) src kw = Raise e ->
   append_csv_to_sql_table env tbl src kw w =
   (Raise e, {| tables := tables w; pending := pending w;
                log := log w ++ [EvConvert (Temp (S3 CSV)) src] |})) /\
  (dialect_name (bind tbl) <> "redshift" -> isinstance src (S3 CSV) = true ->
   has_key (kw_extras kw) "has_header" = false ->
   convert env (Temp CSV) src
     (with_extra "has_header" (py_of_header (has_header src)) kw) = Raise e ->
   append_csv_to_sql_table env tbl src kw w =
   (Raise e, {| tables := tables w; pending := pending w;
                log := log w ++ [EvConvert (Temp CSV) src] |})) /\
  (dialect_name (bind tbl) = "hive" -> isinstance src (S3 CSV) = false ->
   convert env (Temp (SSH CSV)) src kw = Raise e ->
   append_csv_to_sql_table env tbl src kw w =
   (Raise e, {| tables := tables w; pending := pending w;
                log := log w ++ [EvConvert (Temp (SSH CSV)) src] |})).
Proof.
  split; [|split].
  - intros Hd Hs Hc. eapply append_conversion_failure; [left|exact Hc].
    apply relocate_to_cloud; assumption.
  - intros Hd Hs Hk Hc. eapply append_conversion_failure; [left|exact Hc].
    rewrite (relocate_to_local _ _ _ _ _ Hd Hs), Hk. reflexivity.
  - intros Hd Hs Hc. eapply append_conversion_failure; [right|exact Hc].
    apply relocate_to_remote; assumption.
Qed.

Lemma conversion_failure_aborts_witness :
  append_csv_to_sql_table Scenario.no_route_env (Sample.table_on "redshift" "db")
    Sample.local_csv no_kwargs Sample.w0 =
  (Raise (ExternalError "NotImplementedError"),
   {| tables := ∅; pending := None;
      log := [EvConvert (Temp (S3 CSV)) Sample.local_csv] |}).
Proof.
  exact (proj1 (conversion_failure_aborts Scenario.no_route_env
                  (Sample.table_on "redshift" "db") Sample.local_csv no_kwargs
                  Sample.w0 (ExternalError "NotImplementedError"))
           eq_refl eq_refl eq_refl).
Defined.

Lemma relocate_proceed_matches env tbl src kw w moved w1 :
  convert_honours_target env ->
  relocate env tbl src kw w = (Ok (Proceed moved), w1) ->
  cloud_residency_agrees tbl moved = true.
Proof.
  intros Hconv. unfold relocate, cloud_residency_agrees, requires_cloud.
  destruct (String.eqb_spec (dialect_name (bind tbl)) "redshift") as [Hd|Hd];
    destruct (isinstance src (S3 CSV)) eqn:Hs; simpl.
  - rewrite Hd. simpl. intros [= <- _]. rewrite Hs. reflexivity.
  - unfold bind_M. rewrite request_convert_run.
    destruct (convert env _ src kw) as [out|] eqn:Hc; [|discriminate].
    intros [= <- _]. unfold isinstance. rewrite (Hconv _ _ _ _ Hc). reflexivity.
  - destruct (has_key _ _); [discriminate|].
    unfold bind_M. rewrite request_convert_run.
    destruct (convert env _ src _) as [out|] eqn:Hc; [|discriminate].
    intros [= <- _]. unfold isinstance. rewrite (Hconv _ _ _ _ Hc). reflexivity.
  - destruct (String.eqb _ "hive").
    + unfold bind_M. rewrite request_convert_run.
      destruct (convert env _ src kw) as [c|]; [|discriminate].
      destruct (append env tbl c kw _) as [[?|?] ?]; discriminate.
    + intros [= <- _]. rewrite Hs. reflexivity.
Qed.

(** X8. Off hive, a resource that came out of the relocation step passes
    through it a second time untouched: no second conversion is requested,
    whatever the first one did. *)
Theorem relocated_copy_is_settled (env : Env) (tbl : Table) (src : resource)
    (kw : kwargs) (w : World) (moved : resource) (w1 : World) :
  convert_honours_target env ->
  dialect_name (bind tbl) <> "hive" ->
  relocate env tbl src kw w = (Ok (Proceed moved), w1) ->
  relocate env tbl moved kw w1 = (Ok (Proceed moved), w1).
Proof.
  intros Hconv Hd Hrel. apply relocate_nothing; [exact Hd|].
  exact (relocate_proceed_matches _ _ _ _ _ _ _ Hconv Hrel).
Qed.

Lemma relocated_copy_is_settled_witness :
  let moved := Sample.relocated (Temp (S3 CSV)) Sample.local_csv no_kwargs in
  let w1 := {| tables := ∅; pending := None;
               log := [EvConvert (Temp (S3 CSV)) Sample.local_csv] |} in
  relocate Sample.env (Sample.table_on "redshift" "db") moved no_kwargs w1 =
  (Ok (Proceed moved), w1).
Proof.
  intros moved w1.
  exact (relocated_copy_is_settled Sample.env (Sample.table_on "redshift" "db")
           Sample.local_csv no_kwargs Sample.w0 moved w1
           sample_convert_honours_target ltac:(discriminate) eq_refl).
Defined.

(** ** Whole loads, dialect by dialect *)

Lemma append_direct env tbl src kw w :
  dialect_name (bind tbl) <> "hive" ->
  cloud_residency_agrees tbl src = true ->
  append_csv_to_sql_table env tbl src kw w = load env tbl src kw w.
Proof.
  intros Hd Hm. unfold append_csv_to_sql_table, bind_M.
  rewrite (relocate_nothing _ _ _ _ _ Hd Hm). reflexivity.
Qed.

Lemma load_run env tbl src kw w el :
  CopyFromCSV_init env tbl src (merge (dialect src) kw) = Ok el ->
  load env tbl src kw w =
  (run with_begin (conn_execute env (bind tbl) el); reflect env tbl) w.
Proof. intros H. unfold load, bind_M at 1, lift. rewrite H. reflexivity. Qed.

Lemma sqlite_direct env tbl src kw w el :
  dialect_name (bind tbl) = "sqlite" ->
  isinstance src (S3 CSV) = false ->
  CopyFromCSV_init env tbl src (merge (dialect src) kw) = Ok el ->
  append_csv_to_sql_table env tbl src kw w =
  (run with_begin (do sql <- compile_from_csv_sqlite env el;
                   run_statement env (bind tbl) sql);
   reflect env tbl) w.
Proof.
  intros Hd Hs Hinit. rewrite append_direct.
  - rewrite (load_run _ _ _ _ _ _ Hinit). unfold conn_execute, compile.
    rewrite Hd. reflexivity.
  - rewrite Hd. discriminate.
  - unfold cloud_residency_agrees, requires_cloud. rewrite Hs, Hd. reflexivity.
Qed.

(** X9. On sqlite, when no [sqlite3] executable is found the load fails
    with [MDNotImplementedError]: no process is spawned, nothing reaches
    the engine, the transaction that was opened is rolled back and the
    tables are untouched. *)
Theorem sqlite_load_without_tool (env : Env) (tbl : Table) (src : resource)
    (kw : kwargs) (w : World) (el : CopyFromCSV) :
  dialect_name (bind tbl) = "sqlite" ->
  isinstance src (S3 CSV) = false ->
  CopyFromCSV_init env tbl src (merge (dialect src) kw) = Ok el ->
  find_executable env "sqlite3" = false ->
  append_csv_to_sql_table env tbl src kw w =
  (Raise (MDNotImplementedError "Could not find sqlite executable"),
   {| tables := tables w; pending := None;
      log := log w ++ [EvBegin; EvRollback] |}).
Proof.
  intros Hd Hs Hinit Hexe. rewrite (sqlite_direct _ _ _ _ _ _ Hd Hs Hinit).
  unfold bind_M, with_begin, compile_from_csv_sqlite. rewrite Hexe. simpl.
  unfold rollback, begin. simpl. rewrite <- app_assoc. reflexivity.
Qed.

Lemma sqlite_load_without_tool_witness :
  append_csv_to_sql_table Scenario.no_sqlite_env (Sample.table_on "sqlite" "db.sqlite")
    Sample.local_csv no_kwargs Sample.w0 =
  (Raise (MDNotImplementedError "Could not find sqlite executable"),
   {| tables := ∅; pending := None; log := [EvBegin; EvRollback] |}).
Proof.
  exact (sqlite_load_without_tool Scenario.no_sqlite_env
           (Sample.table_on "sqlite" "db.sqlite") Sample.local_csv no_kwargs
           Sample.w0 _ eq_refl eq_refl eq_refl eq_refl).
Defined.

(** X10. On sqlite, when [sqlite3] prints nothing the rows it imported are
    in the tables before the engine sees anything; the statement then
    executed in the transaction is the empty text, and on its success the
    call commits and returns the reflected table. *)
Theorem sqlite_load_silent_tool (env : Env) (tbl : Table) (src : resource)
    (kw : kwargs) (w : World) (el : CopyFromCSV) (imported final : DB) :
  dialect_name (bind tbl) = "sqlite" ->
  isinstance src (S3 CSV) = false ->
  CopyFromCSV_init env tbl src (merge (dialect src) kw) = Ok el ->
  find_executable env "sqlite3" = true ->
  sqlite3 env (sqlite_cmd el) (tables w) = ("", imported) ->
  engine_execute env (bind tbl) "" imported = (final, None) ->
  append_csv_to_sql_table env tbl src kw w =
  (Ok {| name := name tbl; schema := schema tbl; bind := bind tbl;
         columns := reflect_columns env final (name tbl) (schema tbl) |},
   {| tables := final; pending := None;
      log := log w ++ [EvBegin; EvSpawn (sqlite_cmd el); EvExecute "";
                       EvCommit; EvReflect (name tbl)] |}).
Proof.
  intros Hd Hs Hinit Hexe Hproc Heng.
  rewrite (sqlite_direct _ _ _ _ _ _ Hd Hs Hinit).
  unfold bind_M, with_begin, compile_from_csv_sqlite, bind_M, Popen_communicate.
  rewrite Hexe. simpl. rewrite Hproc. simpl.
  unfold run_statement. simpl. rewrite Heng. simpl.
  unfold reflect, commit. simpl. rewrite <- !app_assoc. reflexivity.
Qed.

Lemma sqlite_load_silent_tool_witness :
  let tbl := Sample.table_on "sqlite" "db.sqlite" in
  fst (append_csv_to_sql_table Sample.env tbl Sample.local_csv no_kwargs Sample.w0) =
  Ok tbl.
Proof.
  intros tbl.
  exact (f_equal fst
           (sqlite_load_silent_tool Sample.env tbl Sample.local_csv no_kwargs
              Sample.w0 _ _ _ eq_refl eq_refl eq_refl eq_refl eq_refl eq_refl)).
Defined.

(** X11. On sqlite, when [sqlite3] prints anything the load fails with an
    [AssertionError] that quotes the whole command line; the engine is
    never asked to execute a statement, and what the tool did to the
    database stays after the rollback. *)
Theorem sqlite_load_noisy_tool (env : Env) (tbl : Table) (src : resource)
    (kw : kwargs) (w : World) (el : CopyFromCSV) (out : string) (imported : DB) :
  dialect_name (bind tbl) = "sqlite" ->
  isinstance src (S3 CSV) = false ->
  CopyFromCSV_init env tbl src (merge (dialect src) kw) = Ok el ->
  find_executable env "sqlite3" = true ->
  sqlite3 env (sqlite_cmd el) (tables w) = (out, imported) ->
  out <> "" ->
  append_csv_to_sql_table env tbl src kw w =
  (Raise (AssertionError ("bad query " +:+ join " " (sqlite_cmd el))),
   {| tables := imported; pending := None;
      log := log w ++ [EvBegin; EvSpawn (sqlite_cmd el); EvRollback] |}).
Proof.
  intros Hd Hs Hinit Hexe Hproc Hout.
  rewrite (sqlite_direct _ _ _ _ _ _ Hd Hs Hinit).
  unfold bind_M, with_begin, compile_from_csv_sqlite, bind_M, Popen_communicate.
  rewrite Hexe. simpl. rewrite Hproc. simpl.
  destruct (String.eqb_spec out ""); [contradiction|]. simpl.
  unfold rollback. simpl. rewrite <- !app_assoc. reflexivity.
Qed.

Lemma sqlite_load_noisy_tool_witness :
  let tbl := Sample.table_on "sqlite" "db.sqlite" in
  fst (append_csv_to_sql_table Sample.noisy_env tbl Sample.local_csv no_kwargs
         Sample.w0) =
  Raise (AssertionError
           "bad query sqlite3 -nullvalue '' -header -separator , -cmd .import data.csv t db.sqlite").
Proof.
  intros tbl.
  exact (f_equal fst
           (sqlite_load_noisy_tool Sample.noisy_env tbl Sample.local_csv no_kwargs
              Sample.w0 _ _ _ eq_refl eq_refl eq_refl eq_refl eq_refl
              ltac:(discriminate))).
Defined.

(** X12. On mysql, a load whose null token is not empty, whether the
    token comes from the caller or from the resource's own dialect, fails
    with the [ValueError] inside the transaction: nothing reaches the
    engine, the transaction is rolled back and the tables are untouched. *)
Theorem mysql_load_rejects_null_token (env : Env) (tbl : Table) (src : resource)
    (kw : kwargs) (w : World) (el : CopyFromCSV) :
  dialect_name (bind tbl) = "mysql" ->
  isinstance src (S3 CSV) = false ->
  CopyFromCSV_init env tbl src (merge (dialect src) kw) = Ok el ->
  effective "" (kw_na_value kw) (kw_na_value (dialect src)) <> "" ->
  append_csv_to_sql_table env tbl src kw w =
  (Raise (ValueError "MySQL does not support custom NULL values"),
   {| tables := tables w; pending := None;
      log := log w ++ [EvBegin; EvRollback] |}).
Proof.
  intros Hd Hs Hinit Hna. rewrite append_direct.
  2:{ rewrite Hd. discriminate. }
  2:{ unfold cloud_residency_agrees, requires_cloud. rewrite Hs, Hd. reflexivity. }
  rewrite (load_run _ _ _ _ _ _ Hinit).
  unfold bind_M, with_begin, conn_execute, bind_M, compile. rewrite Hd. simpl.
  unfold lift, compile_from_csv_mysql.
  assert (Hel : na_value el = effective "" (kw_na_value kw) (kw_na_value (dialect src))).
  { destruct (init_record _ _ _ _ _ Hinit) as (b & _ & ->). simpl.
    apply effective_merge. }
  rewrite Hel. destruct (String.eqb_spec (effective "" (kw_na_value kw)
                                            (kw_na_value (dialect src))) "");
    [contradiction|]. simpl.
  unfold rollback, begin. simpl. rewrite <- app_assoc. reflexivity.
Qed.

Lemma mysql_load_rejects_null_token_witness :
  append_csv_to_sql_table Sample.env (Sample.table_on "mysql" "db")
    Scenario.piped_csv Scenario.caller_kw Sample.w0 =
  (Raise (ValueError "MySQL does not support custom NULL values"),
   {| tables := ∅; pending := None; log := [EvBegin; EvRollback] |}).
Proof.
  exact (mysql_load_rejects_null_token Sample.env (Sample.table_on "mysql" "db")
           Scenario.piped_csv Scenario.caller_kw Sample.w0 _
           eq_refl eq_refl eq_refl ltac:(discriminate)).
Defined.



(** X14. An empty encoding name falls back to [utf8], unhyphenated, in
    both dialects: postgres writes [ENCODING 'utf8'] for it, not the
    [utf-8] it writes for a given [utf8]. *)
Theorem empty_encoding_defaults (el : CopyFromCSV) :
  encoding el = "" ->
  compile_from_csv_postgres el =
  Ok (postgres_statement el (upper (py_str (py_of_header (header el)))) "utf8") /\
  (na_value el = "" ->
   compile_from_csv_mysql el = Ok (mysql_statement el "utf8")).
Proof.
  intros He. split.
  - rewrite postgres_text. unfold synonym. rewrite He. reflexivity.
  - intros Hna. rewrite (mysql_text _ Hna). unfold synonym. rewrite He. reflexivity.
Qed.

Lemma empty_encoding_defaults_witness :
  let el := Sample.with_encoding ""
              (Sample.clause (Sample.table_on "postgresql" "db") Sample.local_csv) in
  compile_from_csv_postgres el = Ok (postgres_statement el "TRUE" "utf8").
Proof.
  intros el. exact (proj1 (empty_encoding_defaults el eq_refl)).
Defined.

Lemma load_with_statement env tbl src kw w el sql :
  CopyFromCSV_init env tbl src (merge (dialect src) kw) = Ok el ->
  (forall w0, compile env (dialect_name (bind tbl)) el w0 = (Ok sql, w0)) ->
  load env tbl src kw w =
  match engine_execute env (bind tbl) sql (tables w) with
  | (final, None) =>
      (Ok {| name := name tbl; schema := schema tbl; bind := bind tbl;
             columns := reflect_columns env final (name tbl) (schema tbl) |},
       {| tables := final; pending := None;
          log := log w ++ [EvBegin; EvExecute sql; EvCommit; EvReflect (name tbl)] |})
  | (_, Some e) =>
      (Raise e,
       {| tables := tables w; pending := None;
          log := log w ++ [EvBegin; EvExecute sql; EvRollback] |})
  end.
Proof.
  intros Hinit Hc. rewrite (load_run _ _ _ _ _ _ Hinit).
  unfold bind_M, with_begin, conn_execute, bind_M. rewrite Hc.
  unfold run_statement. simpl.
  destruct (engine_execute env (bind tbl) sql (tables w)) as [final [e|]]; simpl.
  - unfold rollback. simpl. rewrite <- !app_assoc. reflexivity.
  - unfold reflect, commit. simpl. rewrite <- !app_assoc. reflexivity.
Qed.

(** X15. A postgres load of a resource outside S3 sends the engine exactly
    one statement, the [COPY ... FROM] text with the null token, the
    [HEADER] keyword and the normalised encoding; when the engine accepts
    it the write set is committed and the table reflected, and when the
    engine reports an error that error is raised and the tables are as
    before, whatever partial write set the engine had. *)
Theorem postgres_load (env : Env) (tbl : Table) (src : resource) (kw : kwargs)
    (w : World) (el : CopyFromCSV) :
  dialect_name (bind tbl) = "postgresql" ->
  isinstance src (S3 CSV) = false ->
  CopyFromCSV_init env tbl src (merge (dialect src) kw) = Ok el ->
  exists b,
    header el = Some b /\
    let sql := postgres_statement el (bool_keyword b)
                 (synonym "utf8" "utf-8" (encoding el)) in
    append_csv_to_sql_table env tbl src kw w =
    match engine_execute env (bind tbl) sql (tables w) with
    | (final, None) =>
        (Ok {| name := name tbl; schema := schema tbl; bind := bind tbl;
               columns := reflect_columns env final (name tbl) (schema tbl) |},
         {| tables := final; pending := None;
            log := log w ++ [EvBegin; EvExecute sql; EvCommit; EvReflect (name tbl)] |})
    | (_, Some e) =>
        (Raise e,
         {| tables := tables w; pending := None;
            log := log w ++ [EvBegin; EvExecute sql; EvRollback] |})
    end.
Proof.
  intros Hd Hs Hinit.
  destruct (init_inversion _ _ _ _ _ Hinit) as (b & _ & Hh & _ & _).
  exists b. split; [exact Hh|]. intros sql. rewrite append_direct.
  2:{ rewrite Hd. discriminate. }
  2:{ unfold cloud_residency_agrees, requires_cloud. rewrite Hs, Hd. reflexivity. }
  apply (load_with_statement _ _ _ _ _ el); [exact Hinit|].
  intros w0. rewrite Hd, compile_postgres_lift, postgres_text, Hh.
  destruct b; reflexivity.
Qed.

Lemma postgres_load_witness :
  let down := Sample.table_on "postgresql" "down" in
  exists b sql,
    header (Sample.clause down Sample.local_csv) = Some b /\
    append_csv_to_sql_table Sample.env down Sample.local_csv no_kwargs Sample.w0 =
    (Raise (ExternalError "OperationalError"),
     {| tables := ∅; pending := None;
        log := [EvBegin; EvExecute sql; EvRollback] |}).
Proof.
  intros down.
  destruct (postgres_load Sample.env down Sample.local_csv no_kwargs Sample.w0
              (Sample.clause down Sample.local_csv) eq_refl eq_refl eq_refl)
    as (b & Hh & Happ).
  exists b. eexists. split; [exact Hh|]. exact Happ.
Defined.

(** X16. A mysql load of a resource outside S3 whose null token is empty
    sends the engine exactly one statement, the [LOAD DATA] text with the
    [local] keyword and the normalised character set; commit and rollback
    follow the engine's answer as for postgres. *)
Theorem mysql_load (env : Env) (tbl : Table) (src : resource) (kw : kwargs)
    (w : World) (el : CopyFromCSV) :
  dialect_name (bind tbl) = "mysql" ->
  isinstance src (S3 CSV) = false ->
  CopyFromCSV_init env tbl src (merge (dialect src) kw) = Ok el ->
  effective "" (kw_na_value kw) (kw_na_value (dialect src)) = "" ->
  let sql := mysql_statement el (synonym "utf-8" "utf8" (encoding el)) in
  append_csv_to_sql_table env tbl src kw w =
  match engine_execute env (bind tbl) sql (tables w) with
  | (final, None) =>
      (Ok {| name := name tbl; schema := schema tbl; bind := bind tbl;
             columns := reflect_columns env final (name tbl) (schema tbl) |},
       {| tables := final; pending := None;
          log := log w ++ [EvBegin; EvExecute sql; EvCommit; EvReflect (name tbl)] |})
  | (_, Some e) =>
      (Raise e,
       {| tables := tables w; pending := None;
          log := log w ++ [EvBegin; EvExecute sql; EvRollback] |})
  end.
Proof.
  intros Hd Hs Hinit Hna sql. rewrite append_direct.
  2:{ rewrite Hd. discriminate. }
  2:{ unfold cloud_residency_agrees, requires_cloud. rewrite Hs, Hd. reflexivity. }
  apply (load_with_statement _ _ _ _ _ el); [exact Hinit|].
  intros w0. rewrite Hd, compile_mysql_lift, mysql_text; [reflexivity|].
  destruct (init_record _ _ _ _ _ Hinit) as (b & _ & ->). simpl.
  rewrite effective_merge. exact Hna.
Qed.

Lemma mysql_load_witness :
  let tbl := Sample.table_on "mysql" "db" in
  let sql := mysql_statement (Sample.clause tbl Sample.local_csv) "utf8" in
  append_csv_to_sql_table Sample.env tbl Sample.local_csv no_kwargs Sample.w0 =
  (Ok tbl,
   {| tables := {["t" := [sql]]}; pending := None;
      log := [EvBegin; EvExecute sql; EvCommit; EvReflect "t"] |}).
Proof.
  intros tbl sql.
  exact (mysql_load Sample.env tbl Sample.local_csv no_kwargs Sample.w0
           (Sample.clause tbl Sample.local_csv) eq_refl eq_refl eq_refl eq_refl).
Defined.
